(** * Voice registry and dialog handlers of the Qwen3 TTS Telegram bot

    A shallow embedding of [bot.py]: the [Qwen3TTSManager] methods that
    own the voice registry, and the message, audio and button handlers
    that drive the per-user dialog.  Python dictionaries are finite maps,
    settings dictionaries live in a store of objects so that aliasing is
    visible, floats are IEEE doubles, and every handler runs in a state
    and exception monad over one record that holds the manager, the file
    system, the user's [context.user_data], the log and the outbox. *)

From Stdlib Require Import Floats Ascii String ZArith.
From Stdlib Require Uint63.
From stdpp Require Import gmap strings list.

Open Scope string_scope.

(** ** Python strings *)

(** A Python [str] is kept as its UTF-8 bytes. *)
Module PyStr.

(** A byte of the form 10xxxxxx continues a code point. *)
Definition is_continuation (a : ascii) : bool :=
  match a with
  | Ascii _ _ _ _ _ _ b6 b7 => b7 && negb b6
  end.

(** [len(s)]: the number of code points. *)
Fixpoint len (s : string) : nat :=
  match s with
  | EmptyString => 0
  | String a s' => (if is_continuation a then 0 else 1) + len s'
  end.

(** [s.startswith(p)]. *)
Definition startswith (s p : string) : bool := String.prefix p s.

Fixpoint drop (n : nat) (s : string) : string :=
  match n, s with
  | 0, _ => s
  | S _, EmptyString => EmptyString
  | S n', String _ s' => drop n' s'
  end.

Fixpoint replace_from (fuel : nat) (old new s : string) : string :=
  match fuel with
  | 0 => s
  | S fuel' =>
      match s with
      | EmptyString => EmptyString
      | String a s' =>
          if String.prefix old s
          then new ++ replace_from fuel' old new (drop (String.length old) s)
          else String a (replace_from fuel' old new s')
      end
  end.

(** [s.replace(old, new)] for a non-empty [old]: every occurrence,
    left to right, without overlap. *)
Definition replace (s old new : string) : string :=
  replace_from (String.length s) old new s.

(** [s.split(c)] for a one-character separator. *)
Fixpoint split (c : ascii) (s : string) : list string :=
  match s with
  | EmptyString => [EmptyString]
  | String a s' =>
      if Ascii.eqb a c then EmptyString :: split c s'
      else match split c s' with
           | h :: t => String a h :: t
           | [] => [String a EmptyString]
           end
  end.

(** [sep.join(parts)]. *)
Definition join (sep : string) (parts : list string) : string :=
  String.concat sep parts.

Definition is_word_char (a : ascii) : bool :=
  let n := nat_of_ascii a in
  (Nat.leb 97 n && Nat.leb n 122) || (Nat.leb 65 n && Nat.leb n 90)
  || (Nat.leb 48 n && Nat.leb n 57) || Nat.eqb n 95.

Fixpoint all_word (s : string) : bool :=
  match s with
  | EmptyString => true
  | String a s' => is_word_char a && all_word s'
  end.

Fixpoint strip_final_newline (s : string) : string :=
  match s with
  | EmptyString => EmptyString
  | String a EmptyString => if Ascii.eqb a "010" then EmptyString else s
  | String a s' => String a (strip_final_newline s')
  end.

(** [re.match(r'^[a-zA-Z0-9_]{3,30}$', s)]: between 3 and 30 word
    characters; [$] also matches just before one final newline. *)
Definition valid_name (s : string) : bool :=
  let w := strip_final_newline s in
  all_word w && Nat.leb 3 (String.length w) && Nat.leb (String.length w) 30.

(** [os.path.join(a, b)]. *)
Definition path_join (a b : string) : string :=
  if String.prefix "/" b then b
  else if (a =? "")%string || String.prefix "/" (drop (String.length a - 1) a)
       then a ++ b
       else a ++ "/" ++ b.

End PyStr.

(** The built-ins whose full behaviour is CPython's and not the
    repository's: handlers take them as an interface. *)
Class PyBuiltins := {
  (** [float(s)]; [None] stands for [ValueError]. *)
  py_float : string -> option float;
  (** [int(s)]; [None] stands for [ValueError]. *)
  py_int : string -> option Z;
  (** [s.lower()]. *)
  py_lower : string -> string;
  (** [s.strip()]. *)
  py_strip : string -> string;
}.

(** ** Data model *)

Definition DEFAULT_VOICE_NAME : string := "default".
Definition VOICE_LIBRARY_DIR : string := "voice_library".
Definition TEMP_DIR : string := "temp_audio".

(** A value stored under a settings key. *)
Inductive value :=
| VFloat (f : float)
| VStr (s : string).

(** Settings dictionaries are objects: a voice holds a reference. *)
Abbreviation loc := positive.
Abbreviation settings_dict := (gmap string value).

(** One entry of [config['voices']].  [S] is what the ["settings"] key
    holds: a reference in memory, the dictionary itself in the JSON
    document.  [cloned] is the truth value of [.get('cloned')], the only
    way the program reads it. *)
Record Voice (S : Type) := mkVoice {
  model : string;
  settings : S;
  cloned : bool;
  cloned_from : option string;
  reference_text : option string;
  created_at : string;
  description : option string;
}.
Arguments mkVoice {S}.
Arguments model {S}.
Arguments settings {S}.
Arguments cloned {S}.
Arguments cloned_from {S}.
Arguments reference_text {S}.
Arguments created_at {S}.
Arguments description {S}.

(** The keys of [tts_manager.config] the handlers read. *)
Record Config (S : Type) := mkConfig {
  default_voice : string;
  voices : gmap string (Voice S);
  max_voice_duration : float;
  max_text_length : nat;
  audio_format : string;
}.
Arguments mkConfig {S}.
Arguments default_voice {S}.
Arguments voices {S}.
Arguments max_voice_duration {S}.
Arguments max_text_length {S}.
Arguments audio_format {S}.

(** What is known of a stored audio file: its identity, what
    [librosa.get_duration] answers on it ([None]: the probe raises,
    which includes a missing [librosa]), and its size in bytes. *)
Record Audio := mkAudio {
  audio_id : N;
  probed_duration : option float;
  audio_size : N;
}.

(** Exceptions the modelled code can raise. *)
Inductive exn :=
| ValueError
| KeyError (k : string)
| TypeError
| AttributeError
| IndexError
| UnboundLocalError (name : string)
| OSError
| RuntimeError.

Inductive result (A : Type) :=
| Ok (a : A)
| Raise (e : exn).
Arguments Ok {A}.
Arguments Raise {A}.

(** A value of [context.user_data]. *)
Inductive pyval :=
| PBool (b : bool)
| PStr (s : string)
| PParam (type voice : string).

(** Python truth value. *)
Definition truthy (v : pyval) : bool :=
  match v with
  | PBool b => b
  | PStr s => negb (s =? "")%string
  | PParam _ _ => true
  end.

(** [d.get(k)] taken as a condition. *)
Definition get_truthy (d : gmap string pyval) (k : string) : bool :=
  match d !! k with
  | Some v => truthy v
  | None => false
  end.

(** Messages returned by the manager, by what they report. *)
Inductive Msg :=
| AlreadyExists
| Created (name : string)
| Cloned (name : string)
| CloneError (e : exn)
| NotFound
| IsDefaultVoice
| Deleted (name : string)
| SettingsUpdated
| DefaultSet (name : string).

Inductive LogEntry :=
| InfoConfigSaved
| InfoVoiceFilesRemoved (name : string)
| WarnRemoveFailed (e : exn)
| InfoVoiceCloned (name : string)
| ErrorCloneFailed (e : exn)
| ErrorTtsNotInitialised
| WarnVoiceFallback (name : string)
| InfoSynthesizing (name : string)
| InfoAudioSaved (path : string)
| ErrorSynthesis (e : exn)
| WarnDurationUnchecked (e : exn)
| ErrorAudioHandling (e : exn)
| InfoAudioSent (name : string)
| ErrorSending (e : exn).

(** Keyboards, by the function that builds them. *)
Inductive Markup :=
| MainMenu
| VoicesMenu (page : Z)
| VoiceSettingsMenu (name : string) (can_clone can_delete : bool)
| SettingsKeyboard (name : string) (speed pitch volume emotion language : value)
| EmotionKeyboard (name : string)
| LanguageKeyboard (name : string)
| ConfirmDeleteKeyboard (name : string)
| KeyboardRemove.

(** Texts shown to the user, by what they say. *)
Inductive UiText :=
| TxtVoicesList
| TxtVoiceSelected (name : string)
| TxtVoiceSettings (name : string)
| TxtAdjustParams (name : string)
| TxtChooseEmotion (name : string)
| TxtChooseLanguage (name : string)
| TxtEnterValue (param : string) (current : option value)
| TxtEmotionSet (emotion : string)
| TxtLanguageSet (language : string)
| TxtSettingsSaved (name : string)
| TxtSendAudio
| TxtSendAudioFor (name : string)
| TxtEnterNewDescription (name : string) (current : option string)
| TxtCannotDeleteDefault
| TxtConfirmDelete (name : string)
| TxtManager (m : Msg)
| TxtEnterVoiceName
| TxtMainMenu
| TxtSpeedRange
| TxtPitchRange
| TxtVolumeRange
| TxtParamSet (param : string) (v : float)
| TxtBadEmotion
| TxtNotANumber
| TxtDescriptionTooLong
| TxtDescriptionUpdated (name : string)
| TxtBadNameFormat
| TxtNameTaken
| TxtEnterDescription (name : string)
| TxtVoiceCreated (m : Msg)
| TxtTextTooLong
| TxtTextTooShort
| TxtChooseVoice (chars : nat)
| TxtOfferSynthesis
| TxtNoAudioFile
| TxtDownloading
| TxtAudioTooLong (d : float)
| TxtAudioTooShort
| TxtAudioReceived (d : float)
| TxtAudioError
| TxtEnterCloneDescription (name : string)
| TxtAudioMissing
| TxtCloningStarted
| TxtCloneDone (m : Msg)
| TxtAudioOnlyForCloning
| TxtGenerating (name : string)
| TxtGenerationFailed
| TxtFileTooBig
| TxtSendFailed.

(** What a handler hands to the chat. *)
Inductive Out :=
| ReplyText (t : UiText) (k : option Markup)
| EditText (t : UiText) (k : option Markup)
| Answer (t : option UiText) (alert : bool)
| ReplyVoice (a : Audio) (voice : string) (chars : nat)
| DeleteMessage.

(** The arguments [synthesize] passes to the TTS pipeline. *)
Record TtsParams := mkTtsParams {
  tp_text : string;
  tp_speed : value;
  tp_pitch : value;
  tp_volume : value;
  tp_language : value;
  tp_reference_audio : option string;
  tp_reference_text : option string;
}.

(** The two renderings of [datetime.now()]. *)
Record Clock := mkClock {
  stamp_long : string;   (* %Y-%m-%d %H:%M:%S *)
  stamp_short : string;  (* %Y%m%d_%H%M%S *)
}.

(** Everything a handler can read or change. *)
Record World := mkWorld {
  config : Config loc;                       (* tts_manager.config *)
  heap : gmap loc settings_dict;             (* the settings objects *)
  store : option (Config settings_dict);     (* the document in
                                                bot_config.json; [None]: no
                                                file, or a file that holds
                                                no complete document *)
  store_ok : bool;                           (* does a write go through *)
  store_opens : bool;                        (* if it does not: is the file
                                                opened, and so emptied,
                                                before the write fails *)
  files : gmap string Audio;
  dirs : gset string;
  fs_ok : bool;                              (* can the library be written *)
  user_data : gmap string pyval;             (* context.user_data *)
  log : list LogEntry;
  outbox : list Out;
  clock : Clock;
  tts_pipeline : option (TtsParams -> option Audio);
  send_ok : bool;                            (* does reply_voice go through *)
}.

Definition with_config (c : Config loc) (w : World) : World :=
  mkWorld c (heap w) (store w) (store_ok w) (store_opens w) (files w)
          (dirs w) (fs_ok w)
          (user_data w) (log w) (outbox w) (clock w) (tts_pipeline w) (send_ok w).
Definition with_heap (h : gmap loc settings_dict) (w : World) : World :=
  mkWorld (config w) h (store w) (store_ok w) (store_opens w) (files w)
          (dirs w) (fs_ok w)
          (user_data w) (log w) (outbox w) (clock w) (tts_pipeline w) (send_ok w).
Definition with_store (s : option (Config settings_dict)) (w : World) : World :=
  mkWorld (config w) (heap w) s (store_ok w) (store_opens w) (files w)
          (dirs w) (fs_ok w)
          (user_data w) (log w) (outbox w) (clock w) (tts_pipeline w) (send_ok w).
Definition with_store_ok (b : bool) (w : World) : World :=
  mkWorld (config w) (heap w) (store w) b (store_opens w) (files w) (dirs w)
          (fs_ok w)
          (user_data w) (log w) (outbox w) (clock w) (tts_pipeline w) (send_ok w).
Definition with_store_opens (b : bool) (w : World) : World :=
  mkWorld (config w) (heap w) (store w) (store_ok w) b (files w) (dirs w)
          (fs_ok w)
          (user_data w) (log w) (outbox w) (clock w) (tts_pipeline w) (send_ok w).
Definition with_tts_pipeline (t : option (TtsParams -> option Audio))
    (w : World) : World :=
  mkWorld (config w) (heap w) (store w) (store_ok w) (store_opens w) (files w)
          (dirs w) (fs_ok w)
          (user_data w) (log w) (outbox w) (clock w) t (send_ok w).
Definition with_files (f : gmap string Audio) (w : World) : World :=
  mkWorld (config w) (heap w) (store w) (store_ok w) (store_opens w) f
          (dirs w) (fs_ok w)
          (user_data w) (log w) (outbox w) (clock w) (tts_pipeline w) (send_ok w).
Definition with_dirs (d : gset string) (w : World) : World :=
  mkWorld (config w) (heap w) (store w) (store_ok w) (store_opens w) (files w) d
          (fs_ok w)
          (user_data w) (log w) (outbox w) (clock w) (tts_pipeline w) (send_ok w).
Definition with_user_data (u : gmap string pyval) (w : World) : World :=
  mkWorld (config w) (heap w) (store w) (store_ok w) (store_opens w) (files w)
          (dirs w) (fs_ok w)
          u (log w) (outbox w) (clock w) (tts_pipeline w) (send_ok w).
Definition with_log (l : list LogEntry) (w : World) : World :=
  mkWorld (config w) (heap w) (store w) (store_ok w) (store_opens w) (files w)
          (dirs w) (fs_ok w)
          (user_data w) l (outbox w) (clock w) (tts_pipeline w) (send_ok w).
Definition with_outbox (o : list Out) (w : World) : World :=
  mkWorld (config w) (heap w) (store w) (store_ok w) (store_opens w) (files w)
          (dirs w) (fs_ok w)
          (user_data w) (log w) o (clock w) (tts_pipeline w) (send_ok w).

Definition with_voices {S} (v : gmap string (Voice S)) (c : Config S) : Config S :=
  mkConfig (default_voice c) v (max_voice_duration c) (max_text_length c)
           (audio_format c).
Definition with_default_voice {S} (d : string) (c : Config S) : Config S :=
  mkConfig d (voices c) (max_voice_duration c) (max_text_length c)
           (audio_format c).
Definition with_description {S} (d : option string) (v : Voice S) : Voice S :=
  mkVoice (model v) (settings v) (cloned v) (cloned_from v) (reference_text v)
          (created_at v) d.

(** ** The monad of handlers: state that survives an exception *)

Definition M (A : Type) : Type := World -> result A * World.

Definition ret {A} (a : A) : M A := fun w => (Ok a, w).

Definition bind {A B} (m : M A) (k : A -> M B) : M B :=
  fun w =>
    match m w with
    | (Ok a, w') => k a w'
    | (Raise e, w') => (Raise e, w')
    end.

Definition raise {A} (e : exn) : M A := fun w => (Raise e, w).

(** [try: m  except Exception as e: h e]. *)
Definition try_except {A} (m : M A) (h : exn -> M A) : M A :=
  fun w =>
    match m w with
    | (Ok a, w') => (Ok a, w')
    | (Raise e, w') => h e w'
    end.

(** [try: m  except ValueError: h]. *)
Definition try_except_ValueError {A} (m : M A) (h : M A) : M A :=
  fun w =>
    match m w with
    | (Raise ValueError, w') => h w'
    | r => r
    end.

Definition gets {A} (f : World -> A) : M A := fun w => (Ok (f w), w).
Definition modify (f : World -> World) : M unit := fun w => (Ok tt, f w).

Notation "'let*' x := m 'in' k" := (bind m (fun x => k))
  (at level 10, x pattern, m at level 100, k at level 200).
Notation "m >> k" := (bind m (fun _ => k))
  (at level 100, k at level 200, right associativity).

(** [x[...]] on an optional value: [None] is not subscriptable. *)
Definition subscriptable {A} (o : option A) : M A :=
  match o with
  | Some a => ret a
  | None => raise TypeError
  end.

(** [x.attr] on an optional value: [None] has no attributes. *)
Definition has_attrs {A} (o : option A) : M A :=
  match o with
  | Some a => ret a
  | None => raise AttributeError
  end.

Definition logger (e : LogEntry) : M unit :=
  modify (fun w => with_log (log w ++ [e]) w).

Definition send (o : Out) : M unit :=
  modify (fun w => with_outbox (outbox w ++ [o]) w).

(** [context.user_data[k] = v], [del context.user_data[k]],
    [context.user_data[k]]. *)
Definition ud_set (k : string) (v : pyval) : M unit :=
  modify (fun w => with_user_data (<[k := v]> (user_data w)) w).

Definition ud_del (k : string) : M unit :=
  fun w =>
    match user_data w !! k with
    | Some _ => (Ok tt, with_user_data (delete k (user_data w)) w)
    | None => (Raise (KeyError k), w)
    end.

Definition ud_item (k : string) : M pyval :=
  fun w =>
    match user_data w !! k with
    | Some v => (Ok v, w)
    | None => (Raise (KeyError k), w)
    end.

(** ** The file system *)

Definition path_exists (p : string) (w : World) : bool :=
  bool_decide (is_Some (files w !! p)) || bool_decide (p ∈ dirs w).

(** [os.makedirs(d, exist_ok=True)]. *)
Definition makedirs (d : string) : M unit :=
  fun w =>
    if fs_ok w then (Ok tt, with_dirs ({[d]} ∪ dirs w) w)
    else (Raise OSError, w).

(** [shutil.copy2(src, dst)]: needs the source, refuses to copy a file
    onto itself. *)
Definition copy2 (src dst : string) : M unit :=
  fun w =>
    match files w !! src with
    | Some a =>
        if fs_ok w && negb (bool_decide (src = dst))
        then (Ok tt, with_files (<[dst := a]> (files w)) w)
        else (Raise OSError, w)
    | None => (Raise OSError, w)
    end.

(** [os.remove(p)]. *)
Definition os_remove (p : string) : M unit :=
  fun w =>
    match files w !! p with
    | Some _ => (Ok tt, with_files (delete p (files w)) w)
    | None => (Raise OSError, w)
    end.

Definition under (d p : string) : bool :=
  (p =? d)%string || String.prefix (d ++ "/") p.

(** [shutil.rmtree(d)]. *)
Definition rmtree (d : string) : M unit :=
  fun w =>
    if fs_ok w
    then (Ok tt,
          with_dirs (filter (fun p => under d p = false) (dirs w))
            (with_files (filter (fun kv => under d kv.1 = false) (files w)) w))
    else (Raise OSError, w).

(** ** class Qwen3TTSManager *)

Module Qwen3TTSManager.

(** The dictionary a reference stands for. *)
Definition deref (h : gmap loc settings_dict) (l : loc) : settings_dict :=
  default ∅ (h !! l).

Definition dump_voice (h : gmap loc settings_dict) (v : Voice loc)
  : Voice settings_dict :=
  mkVoice (model v) (deref h (settings v)) (cloned v) (cloned_from v)
          (reference_text v) (created_at v) (description v).

(** What [json.dump(self.config, ...)] writes. *)
Definition dump (w : World) : Config settings_dict :=
  mkConfig (default_voice (config w))
           (dump_voice (heap w) <$> voices (config w))
           (max_voice_duration (config w)) (max_text_length (config w))
           (audio_format (config w)).

(** [save_config]: [open(CONFIG_FILE, 'w')], then [json.dump].  Either
    the whole document is written; or the file cannot be opened, and
    keeps what it held; or it is opened, which empties it, and the write
    fails before the document is complete. *)
Definition save_config : M unit :=
  fun w =>
    if store_ok w
    then logger InfoConfigSaved (with_store (Some (dump w)) w)
    else if store_opens w
    then (Raise OSError, with_store None w)
    else (Raise OSError, w).

(** [get_voice_list]: the keys of [config['voices']]. *)
Definition get_voice_list (w : World) : list string :=
  elements (dom (voices (config w))).

(** [get_voice_info]. *)
Definition get_voice_info (name : string) (w : World) : option (Voice loc) :=
  voices (config w) !! name.

(** [name in self.config['voices']]. *)
Definition has_voice (name : string) (w : World) : bool :=
  bool_decide (is_Some (voices (config w) !! name)).

(** [self.config['voices'][name]]. *)
Definition voice_item (name : string) : M (Voice loc) :=
  fun w =>
    match voices (config w) !! name with
    | Some v => (Ok v, w)
    | None => (Raise (KeyError name), w)
    end.

(** [self.config['voices'][name] = v]. *)
Definition set_voice (name : string) (v : Voice loc) : M unit :=
  modify (fun w =>
    with_config (with_voices (<[name := v]> (voices (config w))) (config w)) w).

(** [d.copy()] on a settings dictionary: a new object, same items. *)
Definition dict_copy (l : loc) : M loc :=
  fun w =>
    let l' := fresh (dom (heap w)) in
    (Ok l', with_heap (<[l' := deref (heap w) l]> (heap w)) w).

(** The left operand of [x or y] when it decides: a string that is
    given and not empty. *)
Definition given_str (o : option string) : option string :=
  match o with
  | Some x => if bool_decide (x = "") then None else Some x
  | None => None
  end.

(** The same for a reference to a dictionary: given and not empty. *)
Definition given_dict (h : gmap loc settings_dict) (o : option loc)
  : option loc :=
  match o with
  | Some l => if bool_decide (deref h l = ∅) then None else Some l
  | None => None
  end.

(** [create_voice(voice_name, model=None, settings=None, description="")].
    A supplied [settings] is a reference to the caller's dictionary. *)
Definition create_voice (voice_name : string) (model_arg : option string)
    (settings_arg : option loc) (description_arg : string) : M (bool * Msg) :=
  let* present := gets (has_voice voice_name) in
  if present then ret (false, AlreadyExists)
  else
    let* m :=
      match given_str model_arg with
      | Some m => ret m
      | None => let* d := voice_item DEFAULT_VOICE_NAME in ret (model d)
      end in
    let* h := gets heap in
    let* s :=
      match given_dict h settings_arg with
      | Some l => ret l
      | None => let* d := voice_item DEFAULT_VOICE_NAME in
                dict_copy (settings d)
      end in
    let* now := gets clock in
    set_voice voice_name
      (mkVoice m s false None None (stamp_long now)
         (Some (default ("Пользовательский голос: " ++ voice_name)
                  (given_str (Some description_arg))))) >>
    save_config >>
    ret (true, Created voice_name).

(** Where [clone_voice] keeps the sample of a voice. *)
Definition reference_audio_path (voice_name : string) : string :=
  PyStr.path_join (PyStr.path_join VOICE_LIBRARY_DIR voice_name)
    "reference_audio.wav".

(** [clone_voice(voice_name, audio_path, reference_text="", description="")]. *)
Definition clone_voice (voice_name audio_path reference_text_arg
    description_arg : string) : M (bool * Msg) :=
  try_except
    (let* present := gets (has_voice voice_name) in
     if present && negb (bool_decide (voice_name = DEFAULT_VOICE_NAME))
     then ret (false, AlreadyExists)
     else
       let voice_dir := PyStr.path_join VOICE_LIBRARY_DIR voice_name in
       makedirs voice_dir >>
       let cloned_audio_path := PyStr.path_join voice_dir "reference_audio.wav" in
       copy2 audio_path cloned_audio_path >>
       let* d := voice_item DEFAULT_VOICE_NAME in
       let* s := dict_copy (settings d) in
       let* now := gets clock in
       set_voice voice_name
         (mkVoice (model d) s true (Some cloned_audio_path)
            (Some reference_text_arg) (stamp_long now)
            (Some (default ("Клонированный голос: " ++ voice_name)
                     (given_str (Some description_arg))))) >>
       save_config >>
       logger (InfoVoiceCloned voice_name) >>
       ret (true, Cloned voice_name))
    (fun e => logger (ErrorCloneFailed e) >> ret (false, CloneError e)).

(** [delete_voice(voice_name)]. *)
Definition delete_voice (voice_name : string) : M (bool * Msg) :=
  let* present := gets (has_voice voice_name) in
  if negb present then ret (false, NotFound)
  else if bool_decide (voice_name = DEFAULT_VOICE_NAME)
  then ret (false, IsDefaultVoice)
  else
    let voice_dir := PyStr.path_join VOICE_LIBRARY_DIR voice_name in
    let* there := gets (path_exists voice_dir) in
    (if there
     then try_except
            (rmtree voice_dir >> logger (InfoVoiceFilesRemoved voice_name))
            (fun e => logger (WarnRemoveFailed e))
     else ret tt) >>
    modify (fun w =>
      with_config (with_voices (delete voice_name (voices (config w)))
                     (config w)) w) >>
    let* dv := gets (fun w => default_voice (config w)) in
    (if bool_decide (dv = voice_name)
     then modify (fun w =>
            with_config (with_default_voice DEFAULT_VOICE_NAME (config w)) w)
     else ret tt) >>
    save_config >>
    ret (true, Deleted voice_name).

(** [update_voice_settings(voice_name, settings)]: [dict.update] on the
    voice's settings object. *)
Definition update_voice_settings (voice_name : string)
    (new : settings_dict) : M (bool * Msg) :=
  let* present := gets (has_voice voice_name) in
  if negb present then ret (false, NotFound)
  else
    let* v := voice_item voice_name in
    modify (fun w =>
      with_heap (<[settings v := new ∪ deref (heap w) (settings v)]> (heap w)) w) >>
    save_config >>
    ret (true, SettingsUpdated).

(** [set_default_voice(voice_name)]. *)
Definition set_default_voice (voice_name : string) : M (bool * Msg) :=
  let* present := gets (has_voice voice_name) in
  if negb present then ret (false, NotFound)
  else
    modify (fun w =>
      with_config (with_default_voice voice_name (config w)) w) >>
    save_config >>
    ret (true, DefaultSet voice_name).

(** An optional string taken as a condition. *)
Definition str_truthy (o : option string) : bool :=
  bool_decide (is_Some (given_str o)).

(** [synthesize(text, voice_name=None, output_path=None)]. *)
Definition synthesize (text : string) (voice_name_arg : option string)
    (output_path_arg : option string) : M (option string) :=
  let* pipeline := gets tts_pipeline in
  match pipeline with
  | None => logger ErrorTtsNotInitialised >> ret None
  | Some tts =>
      let* dv := gets (fun w => default_voice (config w)) in
      let voice_name := default dv (given_str voice_name_arg) in
      let* voice_info := gets (get_voice_info voice_name) in
      let* (voice_name, voice_info) :=
        match voice_info with
        | Some _ => ret (voice_name, voice_info)
        | None =>
            logger (WarnVoiceFallback voice_name) >>
            let* vi := gets (get_voice_info DEFAULT_VOICE_NAME) in
            ret (DEFAULT_VOICE_NAME, vi)
        end in
      try_except
        (let* vi := subscriptable voice_info in
         let* h := gets heap in
         let st := deref h (settings vi) in
         let with_ref := cloned vi && str_truthy (cloned_from vi) in
         let tts_params :=
           mkTtsParams text
             (default (VFloat 1.0) (st !! "speed"))
             (default (VFloat 1.0) (st !! "pitch"))
             (default (VFloat 1.0) (st !! "volume"))
             (default (VStr "ru") (st !! "language"))
             (if with_ref then cloned_from vi else None)
             (if with_ref && str_truthy (reference_text vi)
              then reference_text vi else None) in
         logger (InfoSynthesizing voice_name) >>
         match tts tts_params with
         | None => raise RuntimeError
         | Some wav =>
             let* now := gets clock in
             let* fmt := gets (fun w => audio_format (config w)) in
             let output_path :=
               match output_path_arg with
               | Some p => p
               | None => PyStr.path_join TEMP_DIR
                           ("tts_" ++ stamp_short now ++ "." ++ fmt)
               end in
             modify (fun w => with_files (<[output_path := wav]> (files w)) w) >>
             logger (InfoAudioSaved output_path) >>
             ret (Some output_path)
         end)
        (fun e => logger (ErrorSynthesis e) >> ret None)
  end.

End Qwen3TTSManager.

(** ** Updates *)

(** A file attached to a message; [None] when [download_to_drive]
    raises. *)
Record Attachment := mkAttachment {
  download : option Audio;
}.

Record Document := mkDocument {
  mime_type : option string;
  doc_file : Attachment;
}.

Record Message := mkMessage {
  msg_text : option string;
  msg_voice : option Attachment;
  msg_audio : option Attachment;
  msg_document : option Document;
}.

(** [update.message] and [update.callback_query.data]; each is [None]
    for an update of the other kind. *)
Record Update := mkUpdate {
  upd_message : option Message;
  upd_callback_query : option string;
}.

Import Qwen3TTSManager.

(** [update.message.reply_text(...)]. *)
Definition reply_text (u : Update) (t : UiText) (k : option Markup) : M unit :=
  has_attrs (upd_message u) >> send (ReplyText t k).

(** The double written [0.1] in the source. *)
Definition one_tenth : float := 0x1.999999999999ap-4%float.

(** The bound the specification gives each numeric parameter, also the
    one the handler's error messages name. *)
Definition spec_bounds (param : string) : option (float * float) :=
  if bool_decide (param = "speed") then Some (0.5, 2.0)%float
  else if bool_decide (param = "pitch") then Some (0.5, 2.0)%float
  else if bool_decide (param = "volume") then Some (one_tenth, 2.0)%float
  else None.

(** [lo <= v <= hi]. *)
Definition within_bounds (param : string) (v : float) : bool :=
  match spec_bounds param with
  | Some (lo, hi) => (lo <=? v)%float && (v <=? hi)%float
  | None => false
  end.

(** [v < lo or v > hi]. *)
Definition beyond_bounds (param : string) (v : float) : bool :=
  match spec_bounds param with
  | Some (lo, hi) => (v <? lo)%float || (hi <? v)%float
  | None => false
  end.

(** The program keeps strings under the keys read through this; any
    other value is a type error. *)
Definition as_str (v : pyval) : M string :=
  match v with
  | PStr s => ret s
  | _ => raise TypeError
  end.

(** ** Keyboards *)

Definition get_main_menu : Markup := MainMenu.

Definition get_voices_menu (page : Z) : Markup := VoicesMenu page.

(** [get_voice_settings_menu]: reads [voice_info.get('cloned', False)]. *)
Definition get_voice_settings_menu (voice_name : string) : M Markup :=
  let* voice_info := gets (get_voice_info voice_name) in
  let* vi := has_attrs voice_info in
  let is_default := bool_decide (voice_name = DEFAULT_VOICE_NAME) in
  ret (VoiceSettingsMenu voice_name (negb (cloned vi) && negb is_default)
         (negb is_default)).

(** [settings[k]]. *)
Definition settings_item (st : settings_dict) (k : string) : M value :=
  match st !! k with
  | Some v => ret v
  | None => raise (KeyError k)
  end.

(** [get_settings_keyboard]: reads the five settings of the voice. *)
Definition get_settings_keyboard (voice_name : string) : M Markup :=
  let* voice_info := gets (get_voice_info voice_name) in
  let* vi := subscriptable voice_info in
  let* h := gets heap in
  let st := deref h (settings vi) in
  let* speed := settings_item st "speed" in
  let* pitch := settings_item st "pitch" in
  let* volume := settings_item st "volume" in
  let* emotion := settings_item st "emotion" in
  let* language := settings_item st "language" in
  ret (SettingsKeyboard voice_name speed pitch volume emotion language).

Definition get_emotion_keyboard (voice_name : string) : Markup :=
  EmotionKeyboard voice_name.

Definition get_language_keyboard (voice_name : string) : Markup :=
  LanguageKeyboard voice_name.

(** The four statements by which [handle_text_input] stores a new
    description: look the voice up, assign the key, put the entry back,
    save. *)
Definition set_description (voice_name description : string) : M unit :=
  let* voice_info := gets (get_voice_info voice_name) in
  let* vi := subscriptable voice_info in
  set_voice voice_name (with_description (Some description) vi) >>
  save_config.

(** The operations that change the registry, and what each hands back:
    the manager's pair, or nothing for the description edit. *)
Inductive RegistryOp :=
| OpCreate (name : string) (model_arg : option string)
    (settings_arg : option loc) (description_arg : string)
| OpClone (name audio_path reference_text_arg description_arg : string)
| OpDelete (name : string)
| OpUpdateSettings (name : string) (new : settings_dict)
| OpSetDefault (name : string)
| OpSetDescription (name description_arg : string).

Inductive OpResult :=
| Told (ok : bool) (m : Msg)
| Finished.

Definition told (m : M (bool * Msg)) : M OpResult :=
  let* (ok, msg) := m in ret (Told ok msg).

Definition perform (op : RegistryOp) : M OpResult :=
  match op with
  | OpCreate n m s d => told (create_voice n m s d)
  | OpClone n a r d => told (clone_voice n a r d)
  | OpDelete n => told (delete_voice n)
  | OpUpdateSettings n new => told (update_voice_settings n new)
  | OpSetDefault n => told (set_default_voice n)
  | OpSetDescription n d => set_description n d >> ret Finished
  end.

(** The caller was told of success, or was told nothing and saw no
    exception. *)
Definition succeeded (r : result OpResult) : bool :=
  match r with
  | Ok (Told ok _) => ok
  | Ok Finished => true
  | Raise _ => false
  end.

(** The registry is well formed: a profile named [default] exists and the
    default pointer names an existing profile. *)
Definition registry_ok (w : World) : Prop :=
  is_Some (voices (config w) !! DEFAULT_VOICE_NAME) /\
  is_Some (voices (config w) !! default_voice (config w)).

Section Handlers.

Context {B : PyBuiltins}.

(** [update.message.text.strip()]. *)
Definition stripped_text (u : Update) : M string :=
  let* m := has_attrs (upd_message u) in
  let* t := has_attrs (msg_text m) in
  ret (py_strip t).

(** [description.lower() in ['пропустить', 'skip', '-']]. *)
Definition is_skip_token (description : string) : bool :=
  bool_decide (py_lower description ∈ ["пропустить"; "skip"; "-"]).

(** [synthesize_text_handler]. *)
Definition synthesize_text_handler (u : Update) : M unit :=
  let* text := stripped_text u in
  let* limit := gets (fun w => max_text_length (config w)) in
  if Nat.ltb limit (PyStr.len text) then reply_text u TxtTextTooLong None
  else if Nat.ltb (PyStr.len text) 2 then reply_text u TxtTextTooShort None
  else
    ud_set "pending_text" (PStr text) >>
    reply_text u (TxtChooseVoice (PyStr.len text)) (Some (get_voices_menu 0)).

(** The [adjusting_param] branch of [handle_text_input]. *)
Definition adjust_from_text (u : Update) (param_data : pyval) : M unit :=
  let* (param_type, voice_name) :=
    match param_data with
    | PParam t v => ret (t, v)
    | _ => raise TypeError
    end in
  try_except_ValueError
    (if bool_decide (param_type ∈ ["speed"; "pitch"; "volume"]) then
       let* m := has_attrs (upd_message u) in
       let* value :=
         match msg_text m with
         | None => raise TypeError
         | Some t => match py_float t with
                     | Some v => ret v
                     | None => raise ValueError
                     end
         end in
       if bool_decide (param_type = "speed")
          && ((value <? 0.5)%float || (2.0 <? value)%float)
       then reply_text u TxtSpeedRange None
       else if bool_decide (param_type = "pitch")
               && ((value <? 0.5)%float || (2.0 <? value)%float)
       then reply_text u TxtPitchRange None
       else if bool_decide (param_type = "volume")
               && ((value <? one_tenth)%float || (2.0 <? value)%float)
       then reply_text u TxtVolumeRange None
       else
         let* (success, message) :=
           update_voice_settings voice_name {[param_type := VFloat value]} in
         (if success : bool then
            let* kb := get_settings_keyboard voice_name in
            reply_text u (TxtParamSet param_type value) (Some kb)
          else reply_text u (TxtManager message) None) >>
         ud_del "adjusting_param"
     else if bool_decide (param_type = "emotion") then
       let* m := has_attrs (upd_message u) in
       let* t := has_attrs (msg_text m) in
       let emotion := py_lower t in
       if negb (bool_decide
                  (emotion ∈ ["neutral"; "happy"; "sad"; "angry"; "excited"]))
       then reply_text u TxtBadEmotion None
       else
         let* (success, message) :=
           update_voice_settings voice_name {["emotion" := VStr emotion]} in
         (if success : bool then
            let* kb := get_settings_keyboard voice_name in
            reply_text u (TxtEmotionSet emotion) (Some kb)
          else reply_text u (TxtManager message) None) >>
         ud_del "adjusting_param"
     else ud_del "adjusting_param")
    (reply_text u TxtNotANumber None).

(** The [editing_description] branch of [handle_text_input]. *)
Definition edit_description_from_text (u : Update) (target : pyval) : M unit :=
  let* voice_name := as_str target in
  let* description := stripped_text u in
  if Nat.ltb 200 (PyStr.len description)
  then reply_text u TxtDescriptionTooLong None
  else
    set_description voice_name description >>
    let* kb := get_voice_settings_menu voice_name in
    reply_text u (TxtDescriptionUpdated voice_name) (Some kb) >>
    ud_del "editing_description".

(** The [awaiting_voice_name] branch of [handle_text_input]. *)
Definition new_voice_name_from_text (u : Update) : M unit :=
  let* voice_name := stripped_text u in
  if negb (PyStr.valid_name voice_name)
  then reply_text u TxtBadNameFormat None
  else
    let* names := gets get_voice_list in
    if bool_decide (voice_name ∈ names)
    then reply_text u TxtNameTaken None
    else
      ud_set "new_voice_name" (PStr voice_name) >>
      ud_set "awaiting_voice_name" (PBool false) >>
      ud_set "awaiting_voice_description" (PBool true) >>
      reply_text u (TxtEnterDescription voice_name) None.

(** The [awaiting_voice_description] branch of [handle_text_input]. *)
Definition new_voice_description_from_text (u : Update) : M unit :=
  let* v := ud_item "new_voice_name" in
  let* voice_name := as_str v in
  let* description := stripped_text u in
  let description :=
    if is_skip_token description
    then "Пользовательский голос: " ++ voice_name
    else description in
  let* (success, message) := create_voice voice_name None None description in
  (if success : bool then
     let* kb := get_voice_settings_menu voice_name in
     reply_text u (TxtVoiceCreated message) (Some kb)
   else reply_text u (TxtManager message) None) >>
  ud_set "awaiting_voice_description" (PBool false) >>
  ud_del "new_voice_name".

(** [handle_text_input]. *)
Definition handle_text_input (u : Update) : M unit :=
  let* ud := gets user_data in
  match ud !! "adjusting_param" with
  | Some param_data => adjust_from_text u param_data
  | None =>
      match ud !! "editing_description" with
      | Some target => edit_description_from_text u target
      | None =>
          if get_truthy ud "awaiting_voice_name"
          then new_voice_name_from_text u
          else if get_truthy ud "awaiting_voice_description"
          then new_voice_description_from_text u
          else
            match ud !! "pending_text" with
            | Some _ => synthesize_text_handler u
            | None => reply_text u TxtOfferSynthesis (Some get_main_menu)
            end
      end
  end.

(** The attachment [handle_audio] picks in its first branch: a voice
    note, an audio file, or a document whose MIME type is present and
    starts with [audio/]. *)
Definition pick_audio_file (m : Message) : option Attachment :=
  match msg_voice m with
  | Some f => Some f
  | None =>
      match msg_audio m with
      | Some f => Some f
      | None =>
          match msg_document m with
          | Some d =>
              if str_truthy (mime_type d)
                 && PyStr.startswith (default "" (mime_type d)) "audio/"
              then Some (doc_file d) else None
          | None => None
          end
      end
  end.

(** The same choice in the [cloning_voice] branch, where the MIME type
    is used without being tested first. *)
Definition pick_audio_file_unguarded (m : Message) : M (option Attachment) :=
  match msg_voice m with
  | Some f => ret (Some f)
  | None =>
      match msg_audio m with
      | Some f => ret (Some f)
      | None =>
          match msg_document m with
          | Some d =>
              let* mime := has_attrs (mime_type d) in
              if PyStr.startswith mime "audio/"
              then ret (Some (doc_file d)) else ret None
          | None => ret None
          end
      end
  end.

(** [audio_file.download_to_drive(temp_path)]. *)
Definition download_to_drive (f : Attachment) (temp_path : string) : M unit :=
  match download f with
  | Some a => modify (fun w => with_files (<[temp_path := a]> (files w)) w)
  | None => raise OSError
  end.

(** [import librosa; librosa.get_duration(filename=temp_path)]. *)
Definition get_duration (temp_path : string) : M float :=
  let* f := gets (fun w => files w !! temp_path) in
  match f with
  | Some a => match probed_duration a with
              | Some d => ret d
              | None => raise RuntimeError
              end
  | None => raise OSError
  end.

(** How the inner [try] of an audio branch ends: by [return], or by
    falling through with [duration] bound or not. *)
Inductive probe_outcome :=
| Returned
| Proceed (duration : option float).

(** The [awaiting_voice_audio] branch of [handle_audio]. *)
Definition clone_audio_from_message (u : Update) : M unit :=
  let* m := has_attrs (upd_message u) in
  match pick_audio_file m with
  | None => reply_text u TxtNoAudioFile None
  | Some audio_file =>
      let* now := gets clock in
      let temp_path :=
        PyStr.path_join TEMP_DIR ("voice_" ++ stamp_short now ++ ".ogg") in
      try_except
        (reply_text u TxtDownloading None >>
         download_to_drive audio_file temp_path >>
         let* limit := gets (fun w => max_voice_duration (config w)) in
         let* outcome :=
           try_except
             (let* duration := get_duration temp_path in
              try_except
                (if (limit <? duration)%float then
                   os_remove temp_path >>
                   reply_text u (TxtAudioTooLong duration) None >>
                   ret Returned
                 else if (duration <? 1.0)%float then
                   os_remove temp_path >>
                   reply_text u TxtAudioTooShort None >>
                   ret Returned
                 else ret (Proceed (Some duration)))
                (fun e => logger (WarnDurationUnchecked e) >>
                          ret (Proceed (Some duration))))
             (fun e => logger (WarnDurationUnchecked e) >>
                       ret (Proceed None)) in
         match outcome with
         | Returned => ret tt
         | Proceed duration =>
             ud_set "voice_audio_path" (PStr temp_path) >>
             ud_set "awaiting_voice_audio" (PBool false) >>
             ud_set "awaiting_cloned_voice_name" (PBool true) >>
             match duration with
             | Some d => reply_text u (TxtAudioReceived d) None
             | None => raise (UnboundLocalError "duration")
             end
         end)
        (fun e =>
           logger (ErrorAudioHandling e) >>
           let* there := gets (path_exists temp_path) in
           (if there then os_remove temp_path else ret tt) >>
           reply_text u TxtAudioError None)
  end.

(** The [awaiting_cloned_voice_name] branch of [handle_audio]. *)
Definition clone_name_from_message (u : Update) : M unit :=
  let* voice_name := stripped_text u in
  if negb (PyStr.valid_name voice_name)
  then reply_text u TxtBadNameFormat None
  else
    let* names := gets get_voice_list in
    if bool_decide (voice_name ∈ names)
    then reply_text u TxtNameTaken None
    else
      ud_set "cloned_voice_name" (PStr voice_name) >>
      ud_set "awaiting_cloned_voice_name" (PBool false) >>
      ud_set "awaiting_cloned_voice_description" (PBool true) >>
      reply_text u (TxtEnterCloneDescription voice_name) None.

(** The [awaiting_cloned_voice_description] branch of [handle_audio]. *)
Definition clone_description_from_message (u : Update) : M unit :=
  let* v := ud_item "cloned_voice_name" in
  let* voice_name := as_str v in
  let* description := stripped_text u in
  let description :=
    if is_skip_token description
    then "Клонированный голос: " ++ voice_name
    else description in
  let* ud := gets user_data in
  let* audio_path :=
    match ud !! "voice_audio_path" with
    | Some p => if truthy p then let* s := as_str p in ret (Some s)
                else ret None
    | None => ret None
    end in
  let* there :=
    match audio_path with
    | Some p => gets (path_exists p)
    | None => ret false
    end in
  match audio_path, there with
  | Some audio_path, true =>
      reply_text u TxtCloningStarted None >>
      let* (success, message) :=
        clone_voice voice_name audio_path "" description in
      (if success : bool then
         let* still := gets (path_exists audio_path) in
         (if still then os_remove audio_path else ret tt) >>
         reply_text u (TxtCloneDone message) (Some get_main_menu)
       else reply_text u (TxtManager message) (Some get_main_menu)) >>
      ud_set "awaiting_cloned_voice_description" (PBool false) >>
      let* ud := gets user_data in
      (if bool_decide (is_Some (ud !! "cloned_voice_name"))
       then ud_del "cloned_voice_name" else ret tt) >>
      let* ud := gets user_data in
      (if bool_decide (is_Some (ud !! "voice_audio_path"))
       then ud_del "voice_audio_path" else ret tt)
  | _, _ => reply_text u TxtAudioMissing None
  end.

(** The [cloning_voice] branch of [handle_audio]. *)
Definition clone_this_from_message (u : Update) (target : pyval) : M unit :=
  let* voice_name := as_str target in
  let* m := has_attrs (upd_message u) in
  let* picked := pick_audio_file_unguarded m in
  match picked with
  | None => reply_text u TxtNoAudioFile None
  | Some audio_file =>
      let* now := gets clock in
      let temp_path :=
        PyStr.path_join TEMP_DIR ("voice_" ++ stamp_short now ++ ".ogg") in
      try_except
        (download_to_drive audio_file temp_path >>
         let* limit := gets (fun w => max_voice_duration (config w)) in
         let* outcome :=
           try_except
             (let* duration := get_duration temp_path in
              if (limit <? duration)%float then
                os_remove temp_path >>
                reply_text u (TxtAudioTooLong duration) None >>
                ret Returned
              else ret (Proceed (Some duration)))
             (fun _ => ret (Proceed None)) in
         match outcome with
         | Returned => ret tt
         | Proceed _ =>
             reply_text u TxtCloningStarted None >>
             let* (success, message) :=
               clone_voice voice_name temp_path "" "" in
             (if success : bool
              then reply_text u (TxtCloneDone message) (Some get_main_menu)
              else reply_text u (TxtManager message) (Some get_main_menu)) >>
             let* there := gets (path_exists temp_path) in
             (if there then os_remove temp_path else ret tt) >>
             ud_del "cloning_voice"
         end)
        (fun e =>
           logger (ErrorAudioHandling e) >>
           reply_text u TxtAudioError (Some get_main_menu))
  end.

(** [handle_audio]. *)
Definition handle_audio (u : Update) : M unit :=
  let* ud := gets user_data in
  if get_truthy ud "awaiting_voice_audio" then clone_audio_from_message u
  else if get_truthy ud "awaiting_cloned_voice_name"
  then clone_name_from_message u
  else if get_truthy ud "awaiting_cloned_voice_description"
  then clone_description_from_message u
  else
    match ud !! "cloning_voice" with
    | Some target => clone_this_from_message u target
    | None => reply_text u TxtAudioOnlyForCloning None
    end.

(** [update.message.reply_voice(...)]. *)
Definition reply_voice (u : Update) (a : Audio) (voice_name : string)
    (chars : nat) : M unit :=
  has_attrs (upd_message u) >>
  let* ok := gets send_ok in
  if ok : bool then send (ReplyVoice a voice_name chars) else raise OSError.

(** [synthesize_and_send]. *)
Definition synthesize_and_send (u : Update) (voice_name : string) : M unit :=
  let* ud := gets user_data in
  match ud !! "pending_text" with
  | None => ret tt
  | Some v =>
      if negb (truthy v) then ret tt
      else
        let* text := as_str v in
        reply_text u (TxtGenerating voice_name) None >>
        let* audio_path := synthesize text (Some voice_name) None in
        let* there :=
          match audio_path with
          | Some p => if bool_decide (p = "") then ret false
                      else gets (path_exists p)
          | None => ret false
          end in
        match audio_path, there with
        | Some audio_path, true =>
            try_except
              (let* f := gets (fun w => files w !! audio_path) in
               let* a := match f with
                         | Some a => ret a
                         | None => raise OSError
                         end in
               (if N.ltb (50 * 1024 * 1024) (audio_size a)
                then reply_text u TxtFileTooBig None
                else reply_voice u a voice_name (PyStr.len text)) >>
               os_remove audio_path >>
               let* ud := gets user_data in
               (if bool_decide (is_Some (ud !! "pending_text"))
                then ud_del "pending_text" else ret tt) >>
               logger (InfoAudioSent voice_name))
              (fun e => logger (ErrorSending e) >>
                        reply_text u TxtSendFailed None)
        | _, _ => reply_text u TxtGenerationFailed None
        end
  end.

(** [handle_voice_selection]. *)
Definition handle_voice_selection (u : Update) : M unit :=
  let* data := has_attrs (upd_callback_query u) in
  send (Answer None false) >>
  if PyStr.startswith data "select_voice_" then
    let voice_name := PyStr.replace data "select_voice_" "" in
    synthesize_and_send u voice_name >>
    send DeleteMessage
  else ret tt.

(** [parts[i]]. *)
Definition list_item (parts : list string) (i : nat) : M string :=
  match parts !! i with
  | Some x => ret x
  | None => raise IndexError
  end.

(** [int(s)]. *)
Definition int_of (s : string) : M Z :=
  match py_int s with
  | Some z => ret z
  | None => raise ValueError
  end.

(** [button_callback]: the first matching prefix decides. *)
Definition button_callback (u : Update) : M unit :=
  let* data := has_attrs (upd_callback_query u) in
  send (Answer None false) >>
  if PyStr.startswith data "voices_page_" then
    let* page := int_of (PyStr.replace data "voices_page_" "") in
    send (EditText TxtVoicesList (Some (get_voices_menu page)))
  else if PyStr.startswith data "select_voice_" then
    let voice_name := PyStr.replace data "select_voice_" "" in
    let* (success, message) := set_default_voice voice_name in
    if success : bool then
      let* kb := get_voice_settings_menu voice_name in
      send (EditText (TxtVoiceSelected voice_name) (Some kb))
    else send (Answer (Some (TxtManager message)) true)
  else if PyStr.startswith data "voice_menu_" then
    let voice_name := PyStr.replace data "voice_menu_" "" in
    let* kb := get_voice_settings_menu voice_name in
    send (EditText (TxtVoiceSettings voice_name) (Some kb))
  else if PyStr.startswith data "settings_" then
    let voice_name := PyStr.replace data "settings_" "" in
    let* kb := get_settings_keyboard voice_name in
    send (EditText (TxtAdjustParams voice_name) (Some kb))
  else if PyStr.startswith data "adjust_" then
    let parts := PyStr.split "_" data in
    let* param_type := list_item parts 1 in
    let voice_name := PyStr.join "_" (drop 2 parts) in
    ud_set "adjusting_param" (PParam param_type voice_name) >>
    let* voice_info := gets (get_voice_info voice_name) in
    let* vi := subscriptable voice_info in
    let* h := gets heap in
    let current_value := deref h (settings vi) !! param_type in
    if bool_decide (param_type = "emotion") then
      send (EditText (TxtChooseEmotion voice_name)
              (Some (get_emotion_keyboard voice_name)))
    else if bool_decide (param_type = "language") then
      send (EditText (TxtChooseLanguage voice_name)
              (Some (get_language_keyboard voice_name)))
    else if bool_decide (param_type ∈ ["speed"; "pitch"; "volume"]) then
      send (ReplyText (TxtEnterValue param_type current_value) None)
    else raise (KeyError param_type)
  else if PyStr.startswith data "set_emotion_" then
    let parts := PyStr.split "_" data in
    let* voice_name := list_item parts 2 in
    let* emotion := list_item parts 3 in
    let* (success, message) :=
      update_voice_settings voice_name {["emotion" := VStr emotion]} in
    if success : bool then
      send (Answer (Some (TxtEmotionSet emotion)) false) >>
      let* kb := get_settings_keyboard voice_name in
      send (EditText (TxtVoiceSettings voice_name) (Some kb))
    else send (Answer (Some (TxtManager message)) true)
  else if PyStr.startswith data "set_lang_" then
    let parts := PyStr.split "_" data in
    let* voice_name := list_item parts 2 in
    let* language := list_item parts 3 in
    let* (success, message) :=
      update_voice_settings voice_name {["language" := VStr language]} in
    if success : bool then
      send (Answer (Some (TxtLanguageSet language)) false) >>
      let* kb := get_settings_keyboard voice_name in
      send (EditText (TxtVoiceSettings voice_name) (Some kb))
    else send (Answer (Some (TxtManager message)) true)
  else if PyStr.startswith data "save_settings_" then
    let voice_name := PyStr.replace data "save_settings_" "" in
    send (Answer (Some (TxtSettingsSaved voice_name)) false) >>
    let* kb := get_voice_settings_menu voice_name in
    send (EditText (TxtSettingsSaved voice_name) (Some kb))
  else if PyStr.startswith data "clone_this_" then
    let voice_name := PyStr.replace data "clone_this_" "" in
    ud_set "cloning_voice" (PStr voice_name) >>
    send (ReplyText (TxtSendAudioFor voice_name) (Some KeyboardRemove))
  else if PyStr.startswith data "edit_desc_" then
    let voice_name := PyStr.replace data "edit_desc_" "" in
    ud_set "editing_description" (PStr voice_name) >>
    let* voice_info := gets (get_voice_info voice_name) in
    let* vi := has_attrs voice_info in
    send (ReplyText (TxtEnterNewDescription voice_name (description vi)) None)
  else if PyStr.startswith data "delete_confirm_" then
    let voice_name := PyStr.replace data "delete_confirm_" "" in
    if bool_decide (voice_name = DEFAULT_VOICE_NAME)
    then send (Answer (Some TxtCannotDeleteDefault) true)
    else send (EditText (TxtConfirmDelete voice_name)
                 (Some (ConfirmDeleteKeyboard voice_name)))
  else if PyStr.startswith data "delete_voice_" then
    let voice_name := PyStr.replace data "delete_voice_" "" in
    let* (success, message) := delete_voice voice_name in
    if success : bool
    then send (EditText (TxtManager message) (Some (get_voices_menu 0)))
    else send (Answer (Some (TxtManager message)) true)
  else if bool_decide (data = "create_new_voice") then
    send (ReplyText TxtEnterVoiceName (Some KeyboardRemove)) >>
    ud_set "awaiting_voice_name" (PBool true)
  else if bool_decide (data = "back_to_main") then
    send (EditText TxtMainMenu (Some get_main_menu))
  else if bool_decide (data = "back_to_voices") then
    send (EditText TxtVoicesList (Some (get_voices_menu 0)))
  else if bool_decide (data = "noop") then
    send (Answer None false)
  else ret tt.

(** [create_voice_handler]: the menu entry that opens the creation
    flow. *)
Definition create_voice_handler (u : Update) : M unit :=
  reply_text u TxtEnterVoiceName (Some KeyboardRemove) >>
  ud_set "awaiting_voice_name" (PBool true).

(** [clone_voice_handler]: the menu entry that opens the cloning flow. *)
Definition clone_voice_handler (u : Update) : M unit :=
  reply_text u TxtSendAudio None >>
  ud_set "awaiting_voice_audio" (PBool true).

End Handlers.

(** Where the audio branches of [handle_audio] store an upload made at
    the given time. *)
Definition temp_path_at (ck : Clock) : string :=
  PyStr.path_join TEMP_DIR ("voice_" ++ stamp_short ck ++ ".ogg").

(** ** A fragment of CPython's built-ins, to run the handlers *)

(** It agrees with CPython on ASCII and Russian text and on plain decimal
    literals of at most fifteen digits, on [nan] and on [inf].  The
    theorems below hold for every [PyBuiltins]; this instance serves
    where a handler is run on a given message. *)
Module CPythonFragment.

Definition code (a : ascii) : nat := nat_of_ascii a.

Definition between (lo n hi : nat) : bool := Nat.leb lo n && Nat.leb n hi.

Definition is_space (a : ascii) : bool :=
  Nat.eqb (code a) 32 || between 9 (code a) 13.

Fixpoint lstrip (s : string) : string :=
  match s with
  | EmptyString => EmptyString
  | String a s' => if is_space a then lstrip s' else s
  end.

Definition reverse (s : string) : string :=
  string_of_list_ascii (rev (list_ascii_of_string s)).

Definition strip (s : string) : string :=
  reverse (lstrip (reverse (lstrip s))).

Definition lower_ascii (a : ascii) : ascii :=
  if between 65 (code a) 90 then ascii_of_nat (code a + 32) else a.

(** Lower case of ASCII letters and of the Russian capitals, which
    UTF-8 writes as D0 90..AF and D0 81. *)
Fixpoint lower (s : string) : string :=
  match s with
  | EmptyString => EmptyString
  | String a rest =>
      match rest with
      | EmptyString => String (lower_ascii a) EmptyString
      | String b s' =>
          if Nat.eqb (code a) 208 then
            if between 144 (code b) 159
            then String a (String (ascii_of_nat (code b + 32)) (lower s'))
            else if between 160 (code b) 175
            then String (ascii_of_nat 209)
                   (String (ascii_of_nat (code b - 32)) (lower s'))
            else if Nat.eqb (code b) 129
            then String (ascii_of_nat 209)
                   (String (ascii_of_nat 145) (lower s'))
            else String a (String b (lower s'))
          else String (lower_ascii a) (lower rest)
      end
  end.

Definition digit (a : ascii) : option Z :=
  if between 48 (code a) 57 then Some (Z.of_nat (code a - 48)) else None.

Fixpoint digits_value (acc : Z) (s : string) : option Z :=
  match s with
  | EmptyString => Some acc
  | String a s' =>
      match digit a with
      | Some d => digits_value (10 * acc + d) s'
      | None => None
      end
  end.

Definition float_of_Z (z : Z) : float :=
  PrimFloat.of_uint63 (Uint63.of_Z z).

(** [digits], [digits.digits], [digits.] or [.digits]: the quotient of
    two integers that doubles hold exactly, rounded once. *)
Definition decimal (s : string) : option float :=
  match PyStr.split "." s with
  | [i] =>
      if bool_decide (i = "") then None
      else match digits_value 0 i with
           | Some n => if (n <? 10 ^ 15)%Z then Some (float_of_Z n) else None
           | None => None
           end
  | [i; f] =>
      if bool_decide (i = "") && bool_decide (f = "") then None
      else match digits_value 0 (i ++ f) with
           | Some n =>
               if (n <? 10 ^ 15)%Z && Nat.leb (String.length f) 15
               then Some (float_of_Z n
                          / float_of_Z (10 ^ Z.of_nat (String.length f)))%float
               else None
           | None => None
           end
  | _ => None
  end.

Definition unsigned (s : string) : option float :=
  if bool_decide (s = "nan") then Some nan
  else if bool_decide (s ∈ ["inf"; "infinity"]) then Some infinity
  else decimal s.

Definition float_of_str (s : string) : option float :=
  match lower (strip s) with
  | String "-" r => PrimFloat.opp <$> unsigned r
  | String "+" r => unsigned r
  | r => unsigned r
  end.

Definition int_of_str (s : string) : option Z :=
  match strip s with
  | EmptyString => None
  | String "-" EmptyString => None
  | String "+" EmptyString => None
  | String "-" r => Z.opp <$> digits_value 0 r
  | String "+" r => digits_value 0 r
  | r => digits_value 0 r
  end.

Definition builtins : PyBuiltins :=
  {| py_float := float_of_str;
     py_int := int_of_str;
     py_lower := lower;
     py_strip := strip |}.

End CPythonFragment.

Arguments Qwen3TTSManager.given_str : simpl never.
Arguments Qwen3TTSManager.given_dict : simpl never.
Arguments Qwen3TTSManager.deref : simpl never.
Arguments Qwen3TTSManager.dump : simpl never.

(** ** Worlds to run the handlers in *)

Module Examples.

Definition default_settings : settings_dict :=
  {[ "speed" := VFloat 1.0; "pitch" := VFloat 1.0; "volume" := VFloat 1.0;
     "emotion" := VStr "neutral"; "language" := VStr "ru" ]}.

Definition default_voice_entry : Voice loc :=
  mkVoice "Qwen/Qwen3-TTS-12Hz-1.7B-Base" 1%positive false None None
          "2026-01-01 00:00:00" (Some "Голос по умолчанию").

(** [DEFAULT_CONFIG]. *)
Definition DEFAULT_CONFIG : Config loc :=
  mkConfig DEFAULT_VOICE_NAME {[ DEFAULT_VOICE_NAME := default_voice_entry ]}
           30%float 1000 "wav".

Definition sample : Audio := mkAudio 7 (Some 5.0%float) 4096.

(** The bot right after start-up on a fresh installation. *)
Definition fresh_world : World :=
  mkWorld DEFAULT_CONFIG {[ 1%positive := default_settings ]} None true false
          ∅ {[ VOICE_LIBRARY_DIR; TEMP_DIR ]} true ∅ [] []
          (mkClock "2026-01-02 03:04:05" "20260102_030405")
          (Some (fun _ => Some sample)) true.

Definition text_message (t : string) : Update :=
  mkUpdate (Some (mkMessage (Some t) None None None)) None.

Definition voice_message (a : option Audio) : Update :=
  mkUpdate (Some (mkMessage None (Some (mkAttachment a)) None None)) None.

Definition button (data : string) : Update :=
  mkUpdate None (Some data).

(** Run a handler, or a method of the manager, and keep the world. *)
Definition after {A} (m : M A) (w : World) : World := (m w).2.

(** The cloning flow was opened and a five-second voice note sent. *)
Definition sample_uploaded : World :=
  after (handle_audio (B := CPythonFragment.builtins)
           (voice_message (Some sample)))
    (after (clone_voice_handler (text_message "")) fresh_world).

Definition uploaded_path : string := "temp_audio/voice_20260102_030405.ogg".

(** The same with a configuration file that cannot be opened for
    writing. *)
Definition sample_uploaded_read_only : World :=
  with_store_ok false sample_uploaded.

(** A voice [abc] exists and its speed is being adjusted. *)
Definition adjusting_speed_of_abc : World :=
  after (button_callback (B := CPythonFragment.builtins)
           (button "adjust_speed_abc"))
    (after (create_voice "abc" None None "") fresh_world).

(** The speed of a voice that is not in the registry is being adjusted:
    the button handler stored the target before it looked the voice up. *)
Definition adjusting_speed_of_ghost : World :=
  after (button_callback (B := CPythonFragment.builtins)
           (button "adjust_speed_ghost"))
    fresh_world.

(** The description of [abc] is being edited. *)
Definition editing_description_of_abc : World :=
  after (button_callback (B := CPythonFragment.builtins)
           (button "edit_desc_abc"))
    (after (create_voice "abc" None None "") fresh_world).

(** The creation flow was opened and the name [abc] accepted. *)
Definition describing_abc : World :=
  after (handle_text_input (B := CPythonFragment.builtins) (text_message "abc"))
    (after (create_voice_handler (text_message "")) fresh_world).

(** 201 letters. *)
Definition long_description : string :=
  String.concat "" (replicate 201 "a").

(** A text waits for a voice while no TTS pipeline could be loaded. *)
Definition pending_hello_without_tts : World :=
  with_tts_pipeline None
    (after (ud_set "pending_text" (PStr "hello")) fresh_world).

(** The cloning flow was opened. *)
Definition awaiting_sample : World :=
  after (clone_voice_handler (text_message "")) fresh_world.

(** The double written [1.2]. *)
Definition one_point_two : float := 0x1.3333333333333p+0%float.

(** A sample the duration probe cannot read, and one of 45 seconds. *)
Definition unreadable_sample : Audio := mkAudio 9 None 2048.
Definition long_sample : Audio := mkAudio 8 (Some 45.0%float) 2048.

(** A voice [abc] with a model and a speed of its own was created and
    then chosen as the active one. *)
Definition abc_tuned_and_selected : World :=
  after (set_default_voice "abc")
    (after (update_voice_settings "abc" {[ "speed" := VFloat 1.5 ]})
       (after (create_voice "abc" (Some "other/model") None "") fresh_world)).

(** A voice [abc] was created and then chosen as the active one. *)
Definition abc_selected : World :=
  after (set_default_voice "abc")
    (after (create_voice "abc" None None "") fresh_world).

(** [abc], of another model and at speed 1.5, is the active voice; the
    cloning flow was opened and a five-second voice note sent. *)
Definition sample_uploaded_with_abc_selected : World :=
  after (handle_audio (B := CPythonFragment.builtins)
           (voice_message (Some sample)))
    (after (clone_voice_handler (text_message "")) abc_tuned_and_selected).

(** [abc] was created and chosen, and from now on the configuration file
    can be opened but not written to the end. *)
Definition abc_selected_disk_full : World :=
  with_store_opens true (with_store_ok false abc_selected).

End Examples.

(** * Properties of the registry *)

Import Qwen3TTSManager.

Lemma sample_uploaded_has_the_file :
  files Examples.sample_uploaded !! Examples.uploaded_path
  = Some Examples.sample.
Proof. vm_compute. reflexivity. Qed.

Lemma has_voice_true (name : string) (w : World) :
  is_Some (voices (config w) !! name) -> has_voice name w = true.
Proof. intros H. unfold has_voice. by apply bool_decide_eq_true. Qed.

Lemma has_voice_false (name : string) (w : World) :
  voices (config w) !! name = None -> has_voice name w = false.
Proof.
  intros H. unfold has_voice. apply bool_decide_eq_false.
  rewrite H. by intros [? ?].
Qed.

(** Unfolds the monad so that a handler becomes a function of the world. *)
Ltac run :=
  unfold reply_text, reply_voice, logger, send, ud_set, subscriptable,
    has_attrs, as_str, try_except_ValueError, try_except, bind, ret, gets,
    modify, raise;
  simpl.

Lemma delete_voice_unknown (w : World) (name : string) :
  voices (config w) !! name = None ->
  delete_voice name w = (Ok (false, NotFound), w).
Proof.
  intros H. unfold delete_voice. run. by rewrite (has_voice_false _ _ H).
Qed.

Lemma delete_voice_named_default (w : World) :
  is_Some (voices (config w) !! DEFAULT_VOICE_NAME) ->
  delete_voice DEFAULT_VOICE_NAME w = (Ok (false, IsDefaultVoice), w).
Proof.
  intros H. unfold delete_voice. run. by rewrite (has_voice_true _ _ H).
Qed.

Lemma delete_voice_removes (w : World) (name : string) :
  is_Some (voices (config w) !! name) -> name <> DEFAULT_VOICE_NAME ->
  store_ok w = true ->
  exists w', delete_voice name w = (Ok (true, Deleted name), w') /\
    voices (config w') = delete name (voices (config w)) /\
    default_voice (config w') =
      (if bool_decide (default_voice (config w) = name)
       then DEFAULT_VOICE_NAME else default_voice (config w)) /\
    heap w' = heap w /\
    store w' = Some (dump w').
Proof.
  intros H Hne Hok. unfold delete_voice. run.
  rewrite (has_voice_true _ _ H). simpl.
  rewrite (bool_decide_eq_false_2 _ Hne).
  destruct (path_exists _ w) eqn:Hp;
    [unfold rmtree; destruct (fs_ok w) eqn:Hfs; simpl|];
    unfold save_config; simpl;
    destruct (bool_decide (default_voice (config w) = name)); simpl;
    rewrite Hok; simpl; eexists; split; try reflexivity; done.
Qed.

Lemma delete_voice_store_failure (w : World) (name : string) :
  is_Some (voices (config w) !! name) -> name <> DEFAULT_VOICE_NAME ->
  store_ok w = false ->
  exists w', delete_voice name w = (Raise OSError, w') /\
    voices (config w') = delete name (voices (config w)) /\
    default_voice (config w') =
      (if bool_decide (default_voice (config w) = name)
       then DEFAULT_VOICE_NAME else default_voice (config w)) /\
    heap w' = heap w /\
    store w' = (if store_opens w then None else store w).
Proof.
  intros H Hne Hok. unfold delete_voice. run.
  rewrite (has_voice_true _ _ H). simpl.
  rewrite (bool_decide_eq_false_2 _ Hne).
  destruct (path_exists _ w) eqn:Hp;
    [unfold rmtree; destruct (fs_ok w) eqn:Hfs; simpl|];
    unfold save_config; simpl;
    destruct (bool_decide (default_voice (config w) = name)); simpl;
    rewrite Hok; destruct (store_opens w); simpl;
    eexists; split; try reflexivity; done.
Qed.

(** [C1], as stated, fails: the voice the default pointer holds is
    deleted like any other when it is not the one named [default]. *)
Lemma delete_of_the_selected_voice_succeeds :
  default_voice (config Examples.abc_selected) = "abc" /\
  is_Some (voices (config Examples.abc_selected) !! "abc") /\
  (delete_voice (default_voice (config Examples.abc_selected))
     Examples.abc_selected).1 = Ok (true, Deleted "abc") /\
  voices (config (delete_voice (default_voice (config Examples.abc_selected))
                    Examples.abc_selected).2) !! "abc" = None.
Proof.
  split; [reflexivity|]. split; [eexists; vm_compute; reflexivity|].
  split; vm_compute; reflexivity.
Qed.

(** [C1], amended.  [delete_voice] answers [NotFound] for an unknown name,
    [IsDefaultVoice] for the name [default] and for no other, both without
    touching anything; any other present name is removed, the name the
    default pointer holds included, and then the pointer falls back to
    [default]. *)
Theorem delete_voice_guards_the_name_default (w : World) (name : string) :
  (voices (config w) !! name = None ->
   delete_voice name w = (Ok (false, NotFound), w)) /\
  (is_Some (voices (config w) !! name) -> name = DEFAULT_VOICE_NAME ->
   delete_voice name w = (Ok (false, IsDefaultVoice), w)) /\
  (is_Some (voices (config w) !! name) -> name <> DEFAULT_VOICE_NAME ->
   store_ok w = true ->
   exists w', delete_voice name w = (Ok (true, Deleted name), w') /\
     voices (config w') = delete name (voices (config w)) /\
     default_voice (config w') =
       (if bool_decide (default_voice (config w) = name)
        then DEFAULT_VOICE_NAME else default_voice (config w)) /\
     heap w' = heap w /\
     store w' = Some (dump w')).
Proof.
  split; [|split].
  - apply delete_voice_unknown.
  - intros H ->. by apply delete_voice_named_default.
  - apply delete_voice_removes.
Qed.

Lemma delete_voice_guards_the_name_default_witness :
  is_Some (voices (config Examples.abc_selected) !! "abc") /\
  "abc" <> DEFAULT_VOICE_NAME /\
  store_ok Examples.abc_selected = true /\
  exists w', delete_voice "abc" Examples.abc_selected
             = (Ok (true, Deleted "abc"), w') /\
    voices (config w') !! "abc" = None /\
    default_voice (config w') = DEFAULT_VOICE_NAME.
Proof.
  assert (H1 : is_Some (voices (config Examples.abc_selected) !! "abc"))
    by (eexists; vm_compute; reflexivity).
  assert (H2 : "abc" <> DEFAULT_VOICE_NAME) by discriminate.
  assert (H3 : store_ok Examples.abc_selected = true) by reflexivity.
  split; [exact H1|]. split; [exact H2|]. split; [exact H3|].
  destruct (delete_voice_guards_the_name_default Examples.abc_selected "abc")
    as (_ & _ & H).
  destruct (H H1 H2 H3) as (w' & Hrun & Hv & Hd & _).
  exists w'. split; [exact Hrun|]. split.
  - rewrite Hv. apply lookup_delete_eq.
  - rewrite Hd. reflexivity.
Defined.

(** [C10].  On a well-formed registry a successful [delete_voice] was
    not asked to delete [default], and leaves the registry well formed:
    the profile named [default] is still there and the default pointer
    names an existing profile, namely [default] when the pointer held the
    deleted name, and the profile it named before otherwise. *)
Theorem delete_voice_keeps_the_default_pointer_valid
    (w w' : World) (name : string) (m : Msg) :
  registry_ok w ->
  delete_voice name w = (Ok (true, m), w') ->
  name <> DEFAULT_VOICE_NAME /\
  voices (config w') !! name = None /\
  registry_ok w' /\
  (default_voice (config w) = name ->
   default_voice (config w') = DEFAULT_VOICE_NAME) /\
  (default_voice (config w) <> name ->
   default_voice (config w') = default_voice (config w)).
Proof.
  intros [Hdef Hptr] Hrun.
  destruct (voices (config w) !! name) as [v|] eqn:Hv.
  2: { rewrite (delete_voice_unknown _ _ Hv) in Hrun. congruence. }
  destruct (decide (name = DEFAULT_VOICE_NAME)) as [->|Hne].
  { rewrite (delete_voice_named_default _ Hdef) in Hrun. congruence. }
  assert (Hsome : is_Some (voices (config w) !! name)) by (by rewrite Hv).
  destruct (store_ok w) eqn:Hok.
  2: { destruct (delete_voice_store_failure _ _ Hsome Hne Hok) as (w2 & E & _).
       rewrite E in Hrun. congruence. }
  destruct (delete_voice_removes _ _ Hsome Hne Hok) as (w2 & E & Hvs & Hd & _).
  rewrite E in Hrun. injection Hrun as <- <-.
  split; [exact Hne|]. unfold registry_ok. rewrite Hvs, Hd.
  split; [apply lookup_delete_eq|].
  case_bool_decide as Hc.
  - split; [split; by rewrite lookup_delete_ne|]. split; [done|congruence].
  - split; [split; by rewrite lookup_delete_ne|]. split; [congruence|done].
Qed.

Lemma delete_voice_keeps_the_default_pointer_valid_witness :
  registry_ok Examples.abc_selected /\
  default_voice (config Examples.abc_selected) = "abc" /\
  default_voice (config (delete_voice "abc" Examples.abc_selected).2)
    = DEFAULT_VOICE_NAME /\
  registry_ok (delete_voice "abc" Examples.abc_selected).2.
Proof.
  assert (H1 : registry_ok Examples.abc_selected)
    by (split; eexists; vm_compute; reflexivity).
  assert (H2 : delete_voice "abc" Examples.abc_selected
               = (Ok (true, Deleted "abc"),
                  (delete_voice "abc" Examples.abc_selected).2))
    by (vm_compute; reflexivity).
  destruct (delete_voice_keeps_the_default_pointer_valid _ _ _ _ H1 H2)
    as (_ & _ & Hok & Hp & _).
  split; [exact H1|]. split; [reflexivity|].
  split; [apply Hp; reflexivity | exact Hok].
Defined.

Lemma deref_insert_eq (h : gmap loc settings_dict) (l : loc) (x : settings_dict) :
  deref (<[l := x]> h) l = x.
Proof. unfold deref. by rewrite lookup_insert_eq. Qed.

Lemma deref_insert_ne (h : gmap loc settings_dict) (l l' : loc)
    (x : settings_dict) :
  l <> l' -> deref (<[l := x]> h) l' = deref h l'.
Proof. intros H. unfold deref. by rewrite lookup_insert_ne. Qed.

Lemma fresh_loc_unused (h : gmap loc settings_dict) : fresh (dom h) ∉ dom h.
Proof. apply is_fresh. Qed.

Lemma fresh_loc_differs (h : gmap loc settings_dict) (l : loc) :
  is_Some (h !! l) -> fresh (dom h) <> l.
Proof.
  intros H E. apply (fresh_loc_unused h). rewrite E. by apply elem_of_dom.
Qed.

Lemma create_voice_taken (w : World) (name : string) (model_arg : option string)
    (settings_arg : option loc) (desc : string) :
  is_Some (voices (config w) !! name) ->
  create_voice name model_arg settings_arg desc w = (Ok (false, AlreadyExists), w).
Proof.
  intros H. unfold create_voice. run. by rewrite (has_voice_true _ _ H).
Qed.

(** [C5], as stated, fails: with [abc] as the active voice, a new voice
    still takes the model and the speed of the profile named [default]. *)
Lemma create_voice_ignores_the_default_pointer :
  let w := Examples.abc_tuned_and_selected in
  let w' := (create_voice "new" None None "" w).2 in
  default_voice (config w) = "abc" /\
  model <$> voices (config w) !! "abc" = Some "other/model" /\
  (fun v => deref (heap w) (settings v) !! "speed") <$> voices (config w) !! "abc"
    = Some (Some (VFloat 1.5)) /\
  (create_voice "new" None None "" w).1 = Ok (true, Created "new") /\
  model <$> voices (config w') !! "new" = Some "Qwen/Qwen3-TTS-12Hz-1.7B-Base" /\
  (fun v => deref (heap w') (settings v) !! "speed") <$> voices (config w') !! "new"
    = Some (Some (VFloat 1.0)).
Proof. repeat split; vm_compute; reflexivity. Qed.

Lemma update_voice_settings_unknown (w : World) (name : string)
    (new : settings_dict) :
  voices (config w) !! name = None ->
  update_voice_settings name new w = (Ok (false, NotFound), w).
Proof.
  intros H. unfold update_voice_settings. run.
  by rewrite (has_voice_false _ _ H).
Qed.

(** In memory, [update_voice_settings] on a present voice merges the new
    keys into the voice's settings object, whether or not the store can
    then be written. *)
Lemma update_voice_settings_in_memory (w : World) (name : string)
    (new : settings_dict) (v : Voice loc) :
  voices (config w) !! name = Some v ->
  config (update_voice_settings name new w).2 = config w /\
  heap (update_voice_settings name new w).2
    = <[settings v := new ∪ deref (heap w) (settings v)]> (heap w) /\
  (update_voice_settings name new w).1
    = (if store_ok w then Ok (true, SettingsUpdated) else Raise OSError).
Proof.
  intros H. unfold update_voice_settings, voice_item, save_config. run.
  rewrite has_voice_true by (by rewrite H). simpl. rewrite H. simpl.
  by destruct (store_ok w), (store_opens w).
Qed.

(** [C5], amended.  [create_voice] refuses a name that is present.
    Otherwise, given that a profile named [default] exists and the store
    can be written, it adds the profile; a model that is not supplied is
    the model of the profile named [default], whatever the default
    pointer holds; settings that are not supplied are a new dictionary
    with the items of that profile's settings, so that a later update of
    the new voice leaves the source's settings as they were; supplied
    settings are stored as the caller's own dictionary. *)
Theorem create_voice_copies_the_profile_named_default
    (w : World) (name : string) (model_arg : option string)
    (settings_arg : option loc) (desc : string) :
  (is_Some (voices (config w) !! name) ->
   create_voice name model_arg settings_arg desc w
   = (Ok (false, AlreadyExists), w)) /\
  (forall d : Voice loc,
   voices (config w) !! name = None ->
   voices (config w) !! DEFAULT_VOICE_NAME = Some d ->
   store_ok w = true ->
   exists (w' : World) (v : Voice loc),
     create_voice name model_arg settings_arg desc w
     = (Ok (true, Created name), w') /\
     voices (config w') = <[name := v]> (voices (config w)) /\
     default_voice (config w') = default_voice (config w) /\
     store w' = Some (dump w') /\
     model v = default (model d) (given_str model_arg) /\
     (given_dict (heap w) settings_arg = None ->
      (settings v ∉ dom (heap w)) /\
      deref (heap w') (settings v) = deref (heap w) (settings d) /\
      (forall l, l <> settings v -> heap w' !! l = heap w !! l) /\
      (is_Some (heap w !! settings d) ->
       forall new : settings_dict,
         let w'' := (update_voice_settings name new w').2 in
         deref (heap w'') (settings v) = new ∪ deref (heap w) (settings d) /\
         deref (heap w'') (settings d) = deref (heap w) (settings d))) /\
     (forall l, given_dict (heap w) settings_arg = Some l ->
      settings v = l /\ heap w' = heap w)).
Proof.
  split; [apply create_voice_taken|].
  intros d Hfree Hd Hok.
  unfold create_voice, voice_item, dict_copy, set_voice, save_config. run.
  rewrite (has_voice_false _ _ Hfree). simpl.
  destruct (given_str model_arg) as [m|] eqn:Hm; simpl.
  all: rewrite ?Hd; simpl.
  all: destruct (given_dict (heap w) settings_arg) as [l|] eqn:Hs; simpl.
  all: rewrite ?Hd; simpl; rewrite Hok; simpl.
  all: eexists; eexists; (split; [reflexivity|]); simpl.
  all: do 4 (split; [reflexivity|]).
  all: split; [intros Hnone; try discriminate Hnone
              | intros l0 Hl0; try discriminate Hl0;
                injection Hl0 as <-; split; reflexivity].
  all: split; [apply fresh_loc_unused|].
  all: split; [apply deref_insert_eq|].
  all: split; [intros l Hl; by rewrite lookup_insert_ne|].
  all: intros Halloc new.
  all: pose proof (fresh_loc_differs _ _ Halloc) as Hne.
  all: match goal with
       | |- deref (heap (update_voice_settings ?n ?s ?w1).2) (settings ?v0) = _ /\ _ =>
           destruct (update_voice_settings_in_memory w1 n s v0)
             as (_ & Hh & _); [simpl; apply lookup_insert_eq|]
       end.
  all: rewrite Hh; simpl.
  all: rewrite !deref_insert_eq.
  all: split; [reflexivity|].
  all: rewrite !deref_insert_ne by done; reflexivity.
Qed.

Lemma create_voice_copies_the_profile_named_default_witness :
  let w := Examples.abc_tuned_and_selected in
  voices (config w) !! "new" = None /\
  voices (config w) !! DEFAULT_VOICE_NAME = Some Examples.default_voice_entry /\
  store_ok w = true /\
  exists (w' : World) (v : Voice loc),
    create_voice "new" None None "" w = (Ok (true, Created "new"), w') /\
    voices (config w') !! "new" = Some v /\
    model v = "Qwen/Qwen3-TTS-12Hz-1.7B-Base" /\
    deref (heap w') (settings v) = Examples.default_settings.
Proof.
  intros w.
  assert (H1 : voices (config w) !! "new" = None) by (vm_compute; reflexivity).
  assert (H2 : voices (config w) !! DEFAULT_VOICE_NAME
               = Some Examples.default_voice_entry) by (vm_compute; reflexivity).
  assert (H3 : store_ok w = true) by reflexivity.
  split; [exact H1|]. split; [exact H2|]. split; [exact H3|].
  destruct (create_voice_copies_the_profile_named_default w "new" None None "")
    as (_ & H).
  destruct (H _ H1 H2 H3) as (w' & v & Hrun & Hv & _ & _ & Hm & Hs & _).
  exists w', v. split; [exact Hrun|]. split.
  - rewrite Hv. apply lookup_insert_eq.
  - split; [exact Hm|].
    destruct (Hs eq_refl) as (_ & Hcopy & _). rewrite Hcopy.
    vm_compute. reflexivity.
Defined.

Lemma clone_voice_taken (w : World) (name audio_path rt desc : string) :
  is_Some (voices (config w) !! name) -> name <> DEFAULT_VOICE_NAME ->
  clone_voice name audio_path rt desc w = (Ok (false, AlreadyExists), w).
Proof.
  intros H Hne. unfold clone_voice. run. rewrite (has_voice_true _ _ H).
  by rewrite (bool_decide_eq_false_2 _ Hne).
Qed.

(** [C6], as stated, fails when the default profile is the one the
    default pointer holds: with [abc] selected, whose model is
    [other/model] and whose speed is 1.5, a clone gets the model and the
    speed of the profile named [default]. *)
Lemma clone_voice_ignores_the_default_pointer :
  let w := Examples.sample_uploaded_with_abc_selected in
  let r := clone_voice "new" Examples.uploaded_path "" "" w in
  default_voice (config w) = "abc" /\
  model <$> voices (config w) !! "abc" = Some "other/model" /\
  (fun v => deref (heap w) (settings v) !! "speed") <$> voices (config w) !! "abc"
    = Some (Some (VFloat 1.5)) /\
  files w !! Examples.uploaded_path = Some Examples.sample /\
  r.1 = Ok (true, Cloned "new") /\
  cloned <$> voices (config r.2) !! "new" = Some true /\
  model <$> voices (config r.2) !! "new" = Some "Qwen/Qwen3-TTS-12Hz-1.7B-Base" /\
  (fun v => deref (heap r.2) (settings v) !! "speed") <$> voices (config r.2) !! "new"
    = Some (Some (VFloat 1.0)).
Proof. repeat split; vm_compute; reflexivity. Qed.

(** [C6], amended.  [clone_voice] answers [AlreadyExists], changing
    nothing, for a present name other than [default]; for an absent name,
    and for [default] even when present, it succeeds once the sample can
    be copied and the store written; and whenever it succeeds the entry
    is marked cloned, refers to the copy of the sample kept under the
    voice library, which the store records, and has the model of the
    profile named [default] and a new settings dictionary with the items
    of that profile's settings, whatever the default pointer holds. *)
Theorem clone_voice_refuses_names_other_than_default
    (w : World) (name audio_path rt desc : string) :
  (is_Some (voices (config w) !! name) -> name <> DEFAULT_VOICE_NAME ->
   clone_voice name audio_path rt desc w = (Ok (false, AlreadyExists), w)) /\
  (forall (a : Audio) (d : Voice loc),
   voices (config w) !! name = None \/ name = DEFAULT_VOICE_NAME ->
   voices (config w) !! DEFAULT_VOICE_NAME = Some d ->
   files w !! audio_path = Some a ->
   audio_path <> reference_audio_path name ->
   fs_ok w = true -> store_ok w = true ->
   (clone_voice name audio_path rt desc w).1 = Ok (true, Cloned name)) /\
  (forall (w' : World) (m : Msg),
   clone_voice name audio_path rt desc w = (Ok (true, m), w') ->
   exists (v d : Voice loc) (a : Audio),
     voices (config w) !! DEFAULT_VOICE_NAME = Some d /\
     files w !! audio_path = Some a /\
     voices (config w') = <[name := v]> (voices (config w)) /\
     cloned v = true /\
     cloned_from v = Some (reference_audio_path name) /\
     reference_text v = Some rt /\
     files w' !! reference_audio_path name = Some a /\
     model v = model d /\
     deref (heap w') (settings v) = deref (heap w) (settings d) /\
     (settings v ∉ dom (heap w)) /\
     store w' = Some (dump w')).
Proof.
  split; [apply clone_voice_taken|]. split.
  - intros a d Hname Hd Hfile Hdiff Hfs Hok.
    unfold clone_voice, makedirs, copy2, voice_item, dict_copy, set_voice,
      save_config. run.
    assert (Hgo : has_voice name w
                  && negb (bool_decide (name = DEFAULT_VOICE_NAME)) = false).
    { destruct Hname as [Hn| ->].
      - by rewrite (has_voice_false _ _ Hn).
      - rewrite bool_decide_eq_true_2 by done. apply andb_false_r. }
    rewrite Hgo, Hfs. simpl. rewrite Hfile, Hfs. simpl.
    fold (reference_audio_path name).
    rewrite (bool_decide_eq_false_2 _ Hdiff). simpl.
    rewrite Hd. simpl. rewrite Hok. reflexivity.
  - intros w' m.
    unfold clone_voice, makedirs, copy2, voice_item, dict_copy, set_voice,
      save_config. run.
    fold (reference_audio_path name).
    destruct (has_voice name w && negb (bool_decide (name = DEFAULT_VOICE_NAME)));
      simpl; [intros H; discriminate H|].
    destruct (fs_ok w) eqn:Hfs; simpl; [|intros H; discriminate H].
    destruct (files w !! audio_path) as [a|] eqn:Hfile; simpl;
      [|intros H; discriminate H].
    rewrite Hfs.
    destruct (bool_decide (audio_path = reference_audio_path name)); simpl;
      [intros H; discriminate H|].
    destruct (voices (config w) !! DEFAULT_VOICE_NAME) as [d|] eqn:Hd; simpl;
      [|intros H; discriminate H].
    destruct (store_ok w); simpl;
      [|destruct (store_opens w); intros H; discriminate H].
    intros H. injection H as <- <-. simpl.
    eexists _, d, a. repeat (split; [reflexivity|]).
    split; [apply lookup_insert_eq|]. split; [reflexivity|].
    split; [apply deref_insert_eq|]. split; [apply fresh_loc_unused|].
    reflexivity.
Qed.

Lemma clone_voice_refuses_names_other_than_default_witness :
  let w := Examples.sample_uploaded in
  is_Some (voices (config w) !! DEFAULT_VOICE_NAME) /\
  files w !! Examples.uploaded_path = Some Examples.sample /\
  Examples.uploaded_path <> reference_audio_path DEFAULT_VOICE_NAME /\
  fs_ok w = true /\ store_ok w = true /\
  (clone_voice DEFAULT_VOICE_NAME Examples.uploaded_path "" "" w).1
  = Ok (true, Cloned DEFAULT_VOICE_NAME).
Proof.
  intros w.
  assert (H1 : voices (config w) !! DEFAULT_VOICE_NAME
               = Some Examples.default_voice_entry) by (vm_compute; reflexivity).
  assert (H2 : files w !! Examples.uploaded_path = Some Examples.sample)
    by apply sample_uploaded_has_the_file.
  assert (H3 : Examples.uploaded_path <> reference_audio_path DEFAULT_VOICE_NAME)
    by (vm_compute; discriminate).
  split; [by rewrite H1|]. split; [exact H2|]. split; [exact H3|].
  split; [reflexivity|]. split; [reflexivity|].
  destruct (clone_voice_refuses_names_other_than_default
              w DEFAULT_VOICE_NAME Examples.uploaded_path "" "") as (_ & H & _).
  apply (H _ _ (or_intror eq_refl) H1 H2 H3); reflexivity.
Defined.

Ltac unfold_ops :=
  unfold perform, told, create_voice, clone_voice, delete_voice,
    update_voice_settings, set_default_voice, set_description, save_config,
    voice_item, set_voice, dict_copy, makedirs, copy2, rmtree, has_voice,
    get_voice_info, path_exists;
  run.

(** Splits on every scrutinee of the goal that is not itself a match. *)
Ltac split_cases :=
  repeat (match goal with
          | |- context [match ?x with _ => _ end] =>
              lazymatch x with
              | context [match _ with _ => _ end] => fail
              | _ => destruct x eqn:?; simpl in *
              end
          end).

(** [C2], as stated, fails: with a configuration file that cannot be
    written, [clone_voice] reports a failure and yet the new voice is in
    the in-memory registry. *)
Lemma failed_write_leaves_the_clone_in_memory :
  let w := Examples.sample_uploaded_read_only in
  let r := clone_voice "abc" Examples.uploaded_path "" "" w in
  r.1 = Ok (false, CloneError OSError) /\
  voices (config w) !! "abc" = None /\
  is_Some (voices (config r.2) !! "abc") /\
  config r.2 <> config w.
Proof.
  split; [vm_compute; reflexivity|]. split; [vm_compute; reflexivity|].
  split; [eexists; vm_compute; reflexivity|].
  intros E.
  assert (H : voices (config (clone_voice "abc" Examples.uploaded_path "" ""
                                Examples.sample_uploaded_read_only).2) !! "abc"
              = voices (config Examples.sample_uploaded_read_only) !! "abc")
    by (by rewrite E).
  vm_compute in H. discriminate H.
Qed.

(** [C2], amended.  Each of the six operations changes the registry in
    memory first and writes the store last.  A call that succeeds leaves
    the store equal to the registry in memory.  While the store can be
    written, a call that does not succeed leaves registry and store as
    they were.  When the store cannot be written the call does not
    succeed, and the registry in memory is the one the same call produces
    when the write goes through: nothing is rolled back.  The store then
    keeps its content when the call is refused before the write or the
    file cannot be opened, and holds no document when the file was opened
    and the write failed. *)
Theorem mutations_are_written_through_and_never_rolled_back
    (op : RegistryOp) (w : World) :
  let r := perform op w in
  (succeeded r.1 = true -> store r.2 = Some (dump r.2)) /\
  (store_ok w = true -> succeeded r.1 = false ->
   config r.2 = config w /\ heap r.2 = heap w /\ store r.2 = store w) /\
  (store_ok w = false ->
   succeeded r.1 = false /\
   store r.2 =
     (if succeeded (perform op (with_store_ok true w)).1 && store_opens w
      then None else store w) /\
   config r.2 = config (perform op (with_store_ok true w)).2 /\
   heap r.2 = heap (perform op (with_store_ok true w)).2).
Proof.
  destruct w as [c h st sok sop fl dr fok ud lg ob ck tts snd].
  destruct op; simpl.
  all: unfold_ops; split_cases.
  all: unfold dump; simpl; repeat split; intros; simplify_eq; try done.
Qed.

Lemma mutations_are_written_through_and_never_rolled_back_witness :
  let w := Examples.abc_selected_disk_full in
  let op := OpDelete "abc" in
  store_ok w = false /\
  succeeded (perform op w).1 = false /\
  is_Some (store w) /\
  store (perform op w).2 = None /\
  is_Some (voices (config w) !! "abc") /\
  voices (config (perform op w).2) !! "abc" = None.
Proof.
  intros w op.
  assert (H : store_ok w = false) by reflexivity.
  destruct (mutations_are_written_through_and_never_rolled_back op w)
    as (_ & _ & Hfail).
  destruct (Hfail H) as (Hs & Hst & Hc & _).
  split; [exact H|]. split; [exact Hs|].
  split; [eexists; vm_compute; reflexivity|].
  split; [rewrite Hst; vm_compute; reflexivity|].
  split; [eexists; vm_compute; reflexivity|].
  rewrite Hc. vm_compute. reflexivity.
Defined.

(** * Properties of the dialog *)

Lemma fresh_world_registry_ok : registry_ok Examples.fresh_world.
Proof. split; eexists; vm_compute; reflexivity. Qed.

(** Well-formedness is an invariant of the six operations, so it holds of
    every registry they produce from [DEFAULT_CONFIG]. *)
Lemma perform_keeps_registry_ok (op : RegistryOp) (w : World) :
  registry_ok w -> registry_ok (perform op w).2.
Proof.
  destruct w as [c h st sok sop fl dr fok ud lg ob ck tts snd].
  unfold registry_ok. simpl. intros [H1 H2].
  destruct op; simpl; unfold_ops; split_cases; simpl; try done.
  all: repeat match goal with
         | H : bool_decide _ = true |- _ => apply bool_decide_eq_true_1 in H
         | H : bool_decide _ = false |- _ => apply bool_decide_eq_false_1 in H
         | H : _ && _ = true |- _ => apply andb_true_iff in H as [? ?]
         | H : negb _ = true |- _ => apply negb_true_iff in H
         | H : negb _ = false |- _ => apply negb_false_iff in H
         end.
  all: simplify_eq.
  all: try (split; rewrite ?lookup_insert_is_Some, ?lookup_delete_is_Some;
            [try (destruct (decide (name = DEFAULT_VOICE_NAME)); by auto)
            |try (destruct (decide (name = default_voice c)); by auto)]).
  all: split; done.
Qed.

(** [C9], as stated, fails: after the main-menu button the session still
    waits for the name of the clone and still holds the uploaded sample,
    and the sample's file is still there. *)
Lemma back_to_main_keeps_the_uploaded_sample :
  let w := Examples.sample_uploaded in
  let w' := Examples.after (button_callback (B := CPythonFragment.builtins)
                              (Examples.button "back_to_main")) w in
  user_data w !! "voice_audio_path" = Some (PStr Examples.uploaded_path) /\
  user_data w' !! "voice_audio_path" = Some (PStr Examples.uploaded_path) /\
  get_truthy (user_data w') "awaiting_cloned_voice_name" = true /\
  files w' !! Examples.uploaded_path = Some Examples.sample.
Proof. repeat split; vm_compute; reflexivity. Qed.

(** [C9], amended.  From every session state the main-menu button
    answers the query and redraws the main menu, and does nothing else:
    the session with all its payload, the files and the registry are as
    before. *)
Theorem back_to_main_only_shows_the_menu {B : PyBuiltins} (w : World)
    (m : option Message) :
  button_callback (mkUpdate m (Some "back_to_main")) w
  = (Ok tt,
     with_outbox (outbox w ++ [Answer None false;
                               EditText TxtMainMenu (Some MainMenu)]) w).
Proof.
  destruct w. unfold button_callback. run.
  by rewrite <- app_assoc.
Qed.

Lemma synthesize_keeps_user_data (text : string) (voice out : option string)
    (w : World) :
  user_data (synthesize text voice out w).2 = user_data w.
Proof.
  destruct w. unfold synthesize, get_voice_info. run. split_cases; reflexivity.
Qed.

Lemma synthesize_without_pipeline (text : string) (voice out : option string)
    (w : World) :
  tts_pipeline w = None ->
  synthesize text voice out w
  = (Ok None, with_log (log w ++ [ErrorTtsNotInitialised]) w).
Proof.
  intros H. destruct w. simpl in H. subst. reflexivity.
Qed.

(** [C4], as stated, fails: synthesis fails for want of a pipeline, the
    user is told so, and the pending text is still in the session. *)
Lemma pending_text_survives_failed_synthesis :
  let w := Examples.pending_hello_without_tts in
  let w' := Examples.after
              (synthesize_and_send (Examples.text_message "") "default") w in
  (synthesize "hello" (Some "default") None w).1 = Ok None /\
  last (outbox w') = Some (ReplyText TxtGenerationFailed None) /\
  user_data w' !! "pending_text" = Some (PStr "hello").
Proof. repeat split; vm_compute; reflexivity. Qed.

(** [C4], amended.  When [synthesize] returns no audio,
    [synthesize_and_send] ends there: it reports the failure to the user
    and returns, and the session, pending text included, is what it was
    before the call. *)
Theorem failed_synthesis_keeps_the_pending_text
    (w w1 : World) (u : Update) (m : Message) (voice_name text : string) :
  upd_message u = Some m ->
  user_data w !! "pending_text" = Some (PStr text) ->
  text <> "" ->
  synthesize text (Some voice_name) None
    (with_outbox (outbox w ++ [ReplyText (TxtGenerating voice_name) None]) w)
  = (Ok None, w1) ->
  synthesize_and_send u voice_name w
  = (Ok tt, with_outbox (outbox w1 ++ [ReplyText TxtGenerationFailed None]) w1)
  /\ user_data w1 = user_data w.
Proof.
  intros Hm Hp Hne Hs. split.
  - unfold synthesize_and_send. run. rewrite Hp. simpl.
    rewrite (proj2 (String.eqb_neq _ _) Hne). simpl. rewrite Hm. simpl.
    rewrite Hs. reflexivity.
  - pose proof (synthesize_keeps_user_data text (Some voice_name) None
                  (with_outbox (outbox w ++ [ReplyText (TxtGenerating voice_name) None]) w)) as H.
    rewrite Hs in H. simpl in H. destruct w; exact H.
Qed.

Lemma failed_synthesis_keeps_the_pending_text_witness :
  let w := Examples.pending_hello_without_tts in
  let u := Examples.text_message "" in
  user_data w !! "pending_text" = Some (PStr "hello") /\
  "hello" <> "" /\
  (synthesize_and_send u "default" w).1 = Ok tt /\
  user_data (synthesize_and_send u "default" w).2 !! "pending_text"
  = Some (PStr "hello").
Proof.
  intros w u.
  assert (H1 : user_data w !! "pending_text" = Some (PStr "hello"))
    by (vm_compute; reflexivity).
  assert (H2 : "hello" <> "") by discriminate.
  pose proof (synthesize_without_pipeline "hello" (Some "default") None
                (with_outbox (outbox w ++ [ReplyText (TxtGenerating "default")
                                             None]) w) eq_refl) as H3.
  destruct (failed_synthesis_keeps_the_pending_text w _ u _ "default" "hello"
              eq_refl H1 H2 H3) as (Hrun & Hud).
  split; [exact H1|]. split; [exact H2|]. rewrite Hrun.
  split; [reflexivity|]. simpl. exact H1.
Defined.

Lemma SFcompare_Lt_swap (a b : spec_float) :
  SFcompare a b = Some Lt -> SFcompare b a = Some Gt.
Proof.
  destruct a as [sa|sa| |sa ma ea], b as [sb|sb| |sb mb eb]; simpl;
    try discriminate; try (destruct sa, sb; simpl; congruence);
    try (destruct sa; simpl; congruence); try (destruct sb; simpl; congruence).
  change (Pos.compare_cont Eq mb ma) with (Pos.compare mb ma).
  change (Pos.compare_cont Eq ma mb) with (Pos.compare ma mb).
  rewrite (Z.compare_antisym ea eb), (Pos.compare_antisym ma mb).
  destruct sa, sb; simpl; try congruence;
    destruct (ea ?= eb)%Z; simpl; try congruence;
    destruct (ma ?= mb)%positive; simpl; congruence.
Qed.

(** [x <= y] excludes [y < x]. *)
Lemma leb_excludes_gt (x y : float) :
  (x <=? y)%float = true -> (y <? x)%float = false.
Proof.
  rewrite leb_spec, ltb_spec. unfold SFleb, SFltb.
  destruct (SFcompare (Prim2SF y) (Prim2SF x)) as [[]|] eqn:E; try reflexivity.
  apply SFcompare_Lt_swap in E. rewrite E. discriminate.
Qed.

Lemma within_not_beyond (param : string) (v : float) :
  within_bounds param v = true -> beyond_bounds param v = false.
Proof.
  unfold within_bounds, beyond_bounds.
  destruct (spec_bounds param) as [[lo hi]|]; [|done].
  intros [H1 H2]%andb_true_iff.
  by rewrite (leb_excludes_gt _ _ H1), (leb_excludes_gt _ _ H2).
Qed.

Section NumericEdit.
Context {B : PyBuiltins}.

Lemma numeric_param_cases (param : string) :
  param ∈ ["speed"; "pitch"; "volume"] ->
  param = "speed" \/ param = "pitch" \/ param = "volume".
Proof.
  intros H. rewrite !elem_of_cons, elem_of_nil in H.
  destruct H as [?|[?|[?|[]]]]; auto.
Qed.

Lemma handle_text_input_adjusting (w : World) (u : Update) (p : pyval) :
  user_data w !! "adjusting_param" = Some p ->
  handle_text_input u w = adjust_from_text u p w.
Proof. intros H. unfold handle_text_input. run. by rewrite H. Qed.

Lemma adjust_not_a_number (w : World) (u : Update) (m : Message)
    (text param voice_name : string) :
  upd_message u = Some m -> msg_text m = Some text ->
  param ∈ ["speed"; "pitch"; "volume"] ->
  py_float text = None ->
  adjust_from_text u (PParam param voice_name) w
  = (Ok tt, with_outbox (outbox w ++ [ReplyText TxtNotANumber None]) w).
Proof.
  intros Hm Ht Hp Hf. unfold adjust_from_text. run.
  rewrite (bool_decide_eq_true_2 _ Hp), Hm. simpl. rewrite Ht, Hf. simpl.
  reflexivity.
Qed.

Lemma adjust_beyond_bounds (w : World) (u : Update) (m : Message)
    (text param voice_name : string) (v : float) :
  upd_message u = Some m -> msg_text m = Some text ->
  param ∈ ["speed"; "pitch"; "volume"] ->
  py_float text = Some v -> beyond_bounds param v = true ->
  exists t, t ∈ [TxtSpeedRange; TxtPitchRange; TxtVolumeRange] /\
    adjust_from_text u (PParam param voice_name) w
    = (Ok tt, with_outbox (outbox w ++ [ReplyText t None]) w).
Proof.
  intros Hm Ht Hp Hf Hb. unfold adjust_from_text. run.
  rewrite (bool_decide_eq_true_2 _ Hp), Hm. simpl. rewrite Ht, Hf. simpl.
  destruct (numeric_param_cases _ Hp) as [->|[->| ->]];
    unfold beyond_bounds, spec_bounds in Hb; simpl in Hb; simpl; rewrite Hb;
    simpl.
  - exists TxtSpeedRange. split; [repeat constructor|reflexivity].
  - exists TxtPitchRange. split; [repeat constructor|reflexivity].
  - exists TxtVolumeRange. split; [repeat constructor|reflexivity].
Qed.

Lemma adjust_within_bounds (w : World) (u : Update) (m : Message)
    (text param voice_name : string) (v : float) (vi : Voice loc) :
  upd_message u = Some m -> msg_text m = Some text ->
  param ∈ ["speed"; "pitch"; "volume"] ->
  py_float text = Some v -> within_bounds param v = true ->
  voices (config w) !! voice_name = Some vi ->
  let w' := (adjust_from_text u (PParam param voice_name) w).2 in
  config w' = config w /\
  heap w' = <[settings vi := {[param := VFloat v]} ∪ deref (heap w) (settings vi)]>
              (heap w).
Proof.
  intros Hm Ht Hp Hf Hb Hv. apply within_not_beyond in Hb.
  unfold adjust_from_text. run.
  rewrite (bool_decide_eq_true_2 _ Hp), Hm. simpl. rewrite Ht, Hf. simpl.
  unfold update_voice_settings, voice_item, save_config, get_settings_keyboard,
    settings_item, get_voice_info, ud_del. run.
  destruct (numeric_param_cases _ Hp) as [->|[->| ->]];
    unfold beyond_bounds, spec_bounds in Hb; simpl in Hb; simpl; rewrite Hb;
    simpl; (rewrite has_voice_true by (by rewrite Hv)); simpl; rewrite Hv;
    simpl; destruct w; simpl in *; rewrite ?Hv; simpl; split_cases; done.
Qed.

Lemma adjust_unknown_voice (w : World) (u : Update) (m : Message)
    (text param voice_name : string) (v : float) :
  upd_message u = Some m -> msg_text m = Some text ->
  param ∈ ["speed"; "pitch"; "volume"] ->
  py_float text = Some v -> within_bounds param v = true ->
  user_data w !! "adjusting_param" = Some (PParam param voice_name) ->
  voices (config w) !! voice_name = None ->
  adjust_from_text u (PParam param voice_name) w
  = (Ok tt,
     with_user_data (delete "adjusting_param" (user_data w))
       (with_outbox (outbox w ++ [ReplyText (TxtManager NotFound) None]) w)).
Proof.
  intros Hm Ht Hp Hf Hb Hud Hv. apply within_not_beyond in Hb.
  unfold adjust_from_text. run.
  rewrite (bool_decide_eq_true_2 _ Hp), Hm. simpl. rewrite Ht, Hf. simpl.
  unfold update_voice_settings, ud_del. run.
  destruct (numeric_param_cases _ Hp) as [->|[->| ->]];
    unfold beyond_bounds, spec_bounds in Hb; simpl in Hb; simpl; rewrite Hb;
    simpl; rewrite (has_voice_false _ _ Hv); simpl;
    rewrite Hud; destruct w; reflexivity.
Qed.

(** [C3], amended.  While a numeric parameter of a voice is being
    adjusted: a text that is not a number, and a number below the lower
    or above the upper bound, only get an error message, so that
    registry, store and session are as before; a number within the
    bounds is written into the settings of the target voice when that
    voice is in the registry; when it is not, the manager answers
    [NotFound], nothing is written and the adjustment is over. *)
Theorem numeric_edit_is_checked_before_the_update
    (w : World) (u : Update) (m : Message) (text param voice_name : string) :
  upd_message u = Some m -> msg_text m = Some text ->
  user_data w !! "adjusting_param" = Some (PParam param voice_name) ->
  param ∈ ["speed"; "pitch"; "volume"] ->
  (py_float text = None ->
   handle_text_input u w
   = (Ok tt, with_outbox (outbox w ++ [ReplyText TxtNotANumber None]) w)) /\
  (forall v : float,
   py_float text = Some v -> beyond_bounds param v = true ->
   exists t : UiText,
     t ∈ [TxtSpeedRange; TxtPitchRange; TxtVolumeRange] /\
     handle_text_input u w
     = (Ok tt, with_outbox (outbox w ++ [ReplyText t None]) w)) /\
  (forall (v : float) (vi : Voice loc),
   py_float text = Some v -> within_bounds param v = true ->
   voices (config w) !! voice_name = Some vi ->
   let w' := (handle_text_input u w).2 in
   config w' = config w /\
   heap w' = <[settings vi := {[param := VFloat v]} ∪ deref (heap w) (settings vi)]>
               (heap w) /\
   deref (heap w') (settings vi) !! param = Some (VFloat v)) /\
  (forall v : float,
   py_float text = Some v -> within_bounds param v = true ->
   voices (config w) !! voice_name = None ->
   handle_text_input u w
   = (Ok tt,
      with_user_data (delete "adjusting_param" (user_data w))
        (with_outbox (outbox w ++ [ReplyText (TxtManager NotFound) None]) w))).
Proof.
  intros Hm Ht Hud Hp. rewrite (handle_text_input_adjusting _ _ _ Hud).
  split; [by apply (adjust_not_a_number w u m text)|].
  split; [intros v; by apply (adjust_beyond_bounds w u m text)|].
  split.
  - intros v vi Hf Hb Hv.
    destruct (adjust_within_bounds w u m text param voice_name v vi)
      as (Hc & Hh); try done.
    split; [exact Hc|]. split; [exact Hh|].
    simpl in Hh. simpl. rewrite Hh, deref_insert_eq.
    apply lookup_union_Some_l, lookup_singleton_eq.
  - intros v Hf Hb Hv. by apply (adjust_unknown_voice w u m text param voice_name v).
Qed.
End NumericEdit.

(** [C3], as stated, fails twice.  The text [nan] parses to a value that
    is not within the bound of the speed, yet it becomes the speed of the
    voice.  And a value within the bound changes no setting when the
    voice being adjusted is not in the registry. *)
Lemma unchecked_nan_and_missing_target :
  (let w := Examples.adjusting_speed_of_abc in
   let w' := Examples.after (handle_text_input (B := CPythonFragment.builtins)
                               (Examples.text_message "nan")) w in
   user_data w !! "adjusting_param" = Some (PParam "speed" "abc") /\
   py_float (PyBuiltins := CPythonFragment.builtins) "nan" = Some nan /\
   within_bounds "speed" nan = false /\
   (fun v => deref (heap w') (settings v) !! "speed") <$> voices (config w') !! "abc"
   = Some (Some (VFloat nan))) /\
  (let w := Examples.adjusting_speed_of_ghost in
   let r := handle_text_input (B := CPythonFragment.builtins)
              (Examples.text_message "1.2") w in
   user_data w !! "adjusting_param" = Some (PParam "speed" "ghost") /\
   within_bounds "speed" Examples.one_point_two = true /\
   r.1 = Ok tt /\
   last (outbox r.2) = Some (ReplyText (TxtManager NotFound) None) /\
   heap r.2 = heap w /\ config r.2 = config w).
Proof. repeat split; vm_compute; reflexivity. Qed.

Lemma numeric_edit_is_checked_before_the_update_witness :
  let w := Examples.adjusting_speed_of_abc in
  user_data w !! "adjusting_param" = Some (PParam "speed" "abc") /\
  (beyond_bounds "speed" 3.5 = true /\
   exists t : UiText,
     handle_text_input (B := CPythonFragment.builtins)
       (Examples.text_message "3.5") w
     = (Ok tt, with_outbox (outbox w ++ [ReplyText t None]) w)) /\
  (within_bounds "speed" Examples.one_point_two = true /\
   (fun v => deref (heap (handle_text_input (B := CPythonFragment.builtins)
                            (Examples.text_message "1.2") w).2)
               (settings v) !! "speed") <$> voices (config w) !! "abc"
   = Some (Some (VFloat Examples.one_point_two))).
Proof.
  intros w.
  assert (Hud : user_data w !! "adjusting_param" = Some (PParam "speed" "abc"))
    by (vm_compute; reflexivity).
  assert (Hp : "speed" ∈ ["speed"; "pitch"; "volume"]) by apply list_elem_of_here.
  destruct (voices (config w) !! "abc") as [vi|] eqn:Hv;
    [|vm_compute in Hv; discriminate Hv].
  split; [exact Hud|]. split.
  - split; [reflexivity|].
    destruct (numeric_edit_is_checked_before_the_update
                (B := CPythonFragment.builtins) w (Examples.text_message "3.5")
                _ "3.5" "speed" "abc" eq_refl eq_refl Hud Hp) as (_ & H & _).
    destruct (H 3.5%float eq_refl eq_refl) as (t & _ & Hrun).
    exists t. exact Hrun.
  - split; [reflexivity|].
    destruct (numeric_edit_is_checked_before_the_update
                (B := CPythonFragment.builtins) w (Examples.text_message "1.2")
                _ "1.2" "speed" "abc" eq_refl eq_refl Hud Hp) as (_ & _ & H & _).
    destruct (H Examples.one_point_two vi eq_refl eq_refl Hv) as (_ & _ & Hs).
    unfold fmap, option_fmap, option_map. cbv zeta in Hs. rewrite Hs.
    reflexivity.
Defined.


Section DescriptionSteps.
Context {B : PyBuiltins}.

Lemma create_step_skip (w : World) (u : Update) (m : Message) (t name : string) :
  upd_message u = Some m -> msg_text m = Some t ->
  user_data w !! "adjusting_param" = None ->
  user_data w !! "editing_description" = None ->
  get_truthy (user_data w) "awaiting_voice_name" = false ->
  get_truthy (user_data w) "awaiting_voice_description" = true ->
  user_data w !! "new_voice_name" = Some (PStr name) ->
  is_skip_token (py_strip t) = true ->
  voices (config w) !! name = None ->
  is_Some (voices (config w) !! DEFAULT_VOICE_NAME) ->
  description <$> voices (config (handle_text_input u w).2) !! name
  = Some (Some ("Пользовательский голос: " ++ name)).
Proof.
  intros Hm Ht H1 H2 H3 H4 Hn Hs Hfree [d Hd].
  unfold handle_text_input. run. rewrite H1, H2, H3, H4.
  unfold new_voice_description_from_text, ud_item, stripped_text. run.
  rewrite Hn, Hm. simpl. rewrite Ht. simpl. rewrite Hs.
  unfold create_voice, voice_item, dict_copy, set_voice, save_config,
    get_voice_settings_menu, get_voice_info, ud_del. run.
  rewrite (has_voice_false _ _ Hfree). simpl. rewrite Hd. simpl.
  
  destruct w; simpl in *. split_cases; simpl; rewrite ?lookup_insert_eq; try done.
Qed.

Lemma clone_step_skip (w : World) (u : Update) (m : Message) (t name p : string)
    (a : Audio) :
  upd_message u = Some m -> msg_text m = Some t ->
  get_truthy (user_data w) "awaiting_voice_audio" = false ->
  get_truthy (user_data w) "awaiting_cloned_voice_name" = false ->
  get_truthy (user_data w) "awaiting_cloned_voice_description" = true ->
  user_data w !! "cloned_voice_name" = Some (PStr name) ->
  is_skip_token (py_strip t) = true ->
  user_data w !! "voice_audio_path" = Some (PStr p) ->
  p <> "" -> files w !! p = Some a -> p <> reference_audio_path name ->
  fs_ok w = true ->
  voices (config w) !! name = None \/ name = DEFAULT_VOICE_NAME ->
  is_Some (voices (config w) !! DEFAULT_VOICE_NAME) ->
  description <$> voices (config (handle_audio u w).2) !! name
  = Some (Some ("Клонированный голос: " ++ name)).
Proof.
  intros Hm Ht H1 H2 H3 Hn Hs Hp Hne Hfile Hdiff Hfs Hname [d Hd].
  destruct w as [c h st sok sop fl dr fok ud lg ob ck tts snd]; simpl in *.
  assert (Hgo : bool_decide (is_Some (voices c !! name))
                && negb (bool_decide (name = DEFAULT_VOICE_NAME)) = false).
  { destruct Hname as [Hfree| ->].
    - rewrite Hfree. rewrite bool_decide_eq_false_2; [done|by intros [? ?]].
    - rewrite (bool_decide_eq_true_2 (DEFAULT_VOICE_NAME = DEFAULT_VOICE_NAME))
        by done. apply andb_false_r. }
  unfold handle_audio. run. rewrite H1, H2, H3.
  unfold clone_description_from_message, ud_item, stripped_text. run.
  rewrite Hn, Hm. simpl. rewrite Ht. simpl. rewrite Hs, Hp. simpl.
  rewrite (proj2 (String.eqb_neq _ _) Hne). simpl.
  unfold path_exists at 1. simpl. rewrite Hfile. simpl.
  unfold clone_voice, makedirs, copy2, voice_item, dict_copy, set_voice,
    save_config, os_remove, ud_del, has_voice. run.
  rewrite Hgo. subst fok. simpl. rewrite Hfile. simpl.
  fold (reference_audio_path name).
  rewrite (bool_decide_eq_false_2 _ Hdiff). simpl. rewrite Hd. simpl.
  split_cases; simpl; rewrite ?lookup_insert_eq; try done.
Qed.

Lemma edit_step_too_long (w : World) (u : Update) (m : Message) (t name : string) :
  upd_message u = Some m -> msg_text m = Some t ->
  user_data w !! "adjusting_param" = None ->
  user_data w !! "editing_description" = Some (PStr name) ->
  200 < PyStr.len (py_strip t) ->
  handle_text_input u w
  = (Ok tt, with_outbox (outbox w ++ [ReplyText TxtDescriptionTooLong None]) w).
Proof.
  intros Hm Ht H1 H2 Hlen.
  unfold handle_text_input. run. rewrite H1, H2.
  unfold edit_description_from_text, stripped_text. run.
  rewrite Hm. simpl. rewrite Ht. simpl.
  rewrite (proj2 (Nat.ltb_lt _ _) Hlen). reflexivity.
Qed.

(** [C7], amended.  The two steps that ask for the description of a new
    voice, in the creation flow and in the cloning flow, replace a skip
    token by the generated description of that flow.  The step that
    edits the description of an existing voice rejects a text of more
    than 200 characters with an error message and changes neither the
    profile nor the session. *)
Theorem skip_token_and_length_cap_by_step
    (w : World) (u : Update) (m : Message) (t name : string) :
  upd_message u = Some m -> msg_text m = Some t ->
  (user_data w !! "adjusting_param" = None ->
   user_data w !! "editing_description" = None ->
   get_truthy (user_data w) "awaiting_voice_name" = false ->
   get_truthy (user_data w) "awaiting_voice_description" = true ->
   user_data w !! "new_voice_name" = Some (PStr name) ->
   is_skip_token (py_strip t) = true ->
   voices (config w) !! name = None ->
   is_Some (voices (config w) !! DEFAULT_VOICE_NAME) ->
   description <$> voices (config (handle_text_input u w).2) !! name
   = Some (Some ("Пользовательский голос: " ++ name))) /\
  (forall (p : string) (a : Audio),
   get_truthy (user_data w) "awaiting_voice_audio" = false ->
   get_truthy (user_data w) "awaiting_cloned_voice_name" = false ->
   get_truthy (user_data w) "awaiting_cloned_voice_description" = true ->
   user_data w !! "cloned_voice_name" = Some (PStr name) ->
   is_skip_token (py_strip t) = true ->
   user_data w !! "voice_audio_path" = Some (PStr p) ->
   p <> "" -> files w !! p = Some a -> p <> reference_audio_path name ->
   fs_ok w = true ->
   voices (config w) !! name = None \/ name = DEFAULT_VOICE_NAME ->
   is_Some (voices (config w) !! DEFAULT_VOICE_NAME) ->
   description <$> voices (config (handle_audio u w).2) !! name
   = Some (Some ("Клонированный голос: " ++ name))) /\
  (user_data w !! "adjusting_param" = None ->
   user_data w !! "editing_description" = Some (PStr name) ->
   200 < PyStr.len (py_strip t) ->
   handle_text_input u w
   = (Ok tt, with_outbox (outbox w ++ [ReplyText TxtDescriptionTooLong None]) w)).
Proof.
  intros Hm Ht. split; [|split].
  - apply (create_step_skip w u m t name Hm Ht).
  - intros p a. apply (clone_step_skip w u m t name p a Hm Ht).
  - apply (edit_step_too_long w u m t name Hm Ht).
Qed.
End DescriptionSteps.

(** [C7], as stated, fails in both halves.  In the step that edits a
    description the skip token [-] is stored as the description.  In the
    step that describes a new voice a text of 201 characters is accepted
    and the voice created with it. *)
Lemma skip_token_kept_and_long_description_accepted :
  (let w := Examples.editing_description_of_abc in
   let w' := Examples.after (handle_text_input (B := CPythonFragment.builtins)
                               (Examples.text_message "-")) w in
   user_data w !! "editing_description" = Some (PStr "abc") /\
   is_skip_token (B := CPythonFragment.builtins) "-" = true /\
   description <$> voices (config w') !! "abc" = Some (Some "-")) /\
  (let w := Examples.describing_abc in
   let r := handle_text_input (B := CPythonFragment.builtins)
              (Examples.text_message Examples.long_description) w in
   get_truthy (user_data w) "awaiting_voice_description" = true /\
   PyStr.len Examples.long_description = 201 /\
   voices (config w) !! "abc" = None /\
   r.1 = Ok tt /\
   description <$> voices (config r.2) !! "abc"
   = Some (Some Examples.long_description)).
Proof. repeat split; vm_compute; reflexivity. Qed.

Lemma skip_token_and_length_cap_by_step_witness :
  (let w := Examples.describing_abc in
   let u := Examples.text_message "-" in
   is_skip_token (B := CPythonFragment.builtins)
     (py_strip (PyBuiltins := CPythonFragment.builtins) "-") = true /\
   description <$> voices (config (handle_text_input
                                     (B := CPythonFragment.builtins) u w).2)
                   !! "abc"
   = Some (Some "Пользовательский голос: abc")) /\
  (let w := Examples.editing_description_of_abc in
   let u := Examples.text_message Examples.long_description in
   200 < PyStr.len (py_strip (PyBuiltins := CPythonFragment.builtins)
                      Examples.long_description) /\
   handle_text_input (B := CPythonFragment.builtins) u w
   = (Ok tt, with_outbox (outbox w ++ [ReplyText TxtDescriptionTooLong None]) w)).
Proof.
  split.
  - intros w u. split; [vm_compute; reflexivity|].
    destruct (skip_token_and_length_cap_by_step
                (B := CPythonFragment.builtins) w u _ "-" "abc"
                eq_refl eq_refl) as (H & _).
    apply H; try (vm_compute; reflexivity).
    eexists; vm_compute; reflexivity.
  - intros w u.
    assert (Hlen : 200 < PyStr.len (py_strip (PyBuiltins := CPythonFragment.builtins)
                                      Examples.long_description))
      by (vm_compute; lia).
    split; [exact Hlen|].
    destruct (skip_token_and_length_cap_by_step
                (B := CPythonFragment.builtins) w u _ Examples.long_description
                "abc" eq_refl eq_refl) as (_ & _ & H).
    apply H; [vm_compute; reflexivity|vm_compute; reflexivity|exact Hlen].
Defined.


Section AudioIntake.
Context {B : PyBuiltins}.

(** The part of [C8] the code keeps: a sample the probe measures as
    longer than the limit or shorter than a second is removed again and
    reported, and nothing but the outbox has changed. *)
Lemma out_of_range_sample_is_rejected (w : World) (u : Update) (m : Message)
    (f : Attachment) (a : Audio) (d : float) :
  upd_message u = Some m -> pick_audio_file m = Some f ->
  get_truthy (user_data w) "awaiting_voice_audio" = true ->
  download f = Some a -> probed_duration a = Some d ->
  (max_voice_duration (config w) <? d)%float = true \/ (d <? 1.0)%float = true ->
  exists t : UiText,
    t ∈ [TxtAudioTooLong d; TxtAudioTooShort] /\
    handle_audio u w
    = (Ok tt,
       with_files (delete (temp_path_at (clock w)) (files w))
         (with_outbox (outbox w ++ [ReplyText TxtDownloading None;
                                    ReplyText t None]) w)).
Proof.
  intros Hm Hpick Hst Hdl Hpr Hd.
  destruct w as [c h st sok sop fl dr fok ud lg ob ck tts snd]; simpl in *.
  unfold handle_audio. run. rewrite Hst.
  unfold clone_audio_from_message, download_to_drive, get_duration, os_remove.
  run. rewrite Hm. simpl. rewrite Hpick. simpl. rewrite Hdl. simpl.
  fold (temp_path_at ck). rewrite lookup_insert_eq. rewrite Hpr. simpl.
  destruct (max_voice_duration c <? d)%float eqn:Hlong; simpl.
  - rewrite lookup_insert_eq. simpl. exists (TxtAudioTooLong d).
    split; [repeat constructor|]. rewrite delete_insert_eq, <- app_assoc.
    reflexivity.
  - destruct Hd as [Hd|Hd]; [discriminate Hd|]. rewrite Hd. simpl.
    rewrite lookup_insert_eq. simpl. exists TxtAudioTooShort.
    split; [repeat constructor|]. rewrite delete_insert_eq, <- app_assoc.
    reflexivity.
Qed.

(** The part of [C8] the code misses: when the probe raises, the warning
    is logged and the session moves on, but the confirmation needs the
    duration, which was never bound; the outer handler then logs an
    error, removes the sample and reports an error, leaving the session
    with the path of a file that is gone. *)
Lemma unreadable_sample_ends_in_an_error (w : World) (u : Update) (m : Message)
    (f : Attachment) (a : Audio) :
  upd_message u = Some m -> pick_audio_file m = Some f ->
  get_truthy (user_data w) "awaiting_voice_audio" = true ->
  download f = Some a -> probed_duration a = None ->
  handle_audio u w
  = (Ok tt,
     with_files (delete (temp_path_at (clock w)) (files w))
       (with_user_data
          (<["awaiting_cloned_voice_name" := PBool true]>
             (<["awaiting_voice_audio" := PBool false]>
                (<["voice_audio_path" := PStr (temp_path_at (clock w))]>
                   (user_data w))))
          (with_log (log w ++ [WarnDurationUnchecked RuntimeError;
                               ErrorAudioHandling (UnboundLocalError "duration")])
             (with_outbox (outbox w ++ [ReplyText TxtDownloading None;
                                        ReplyText TxtAudioError None]) w)))).
Proof.
  intros Hm Hpick Hst Hdl Hpr.
  destruct w as [c h st sok sop fl dr fok ud lg ob ck tts snd]; simpl in *.
  unfold handle_audio. run. rewrite Hst.
  unfold clone_audio_from_message, download_to_drive, get_duration, os_remove,
    path_exists.
  run. rewrite Hm. simpl. rewrite Hpick. simpl. rewrite Hdl. simpl.
  fold (temp_path_at ck). rewrite lookup_insert_eq. rewrite Hpr. simpl.
  rewrite ?lookup_insert_eq. simpl.
  rewrite ?lookup_insert_eq. simpl.
  rewrite delete_insert_eq, <- !app_assoc. reflexivity.
Qed.
End AudioIntake.

(** [C8], run on the input where the code departs from it: the cloning
    flow waits for a sample and receives a voice note that the duration
    probe cannot read.  The warning is logged, but then an error is
    logged as well, the user is told of an error, the sample's file is
    removed, and the session has moved on to the name of the clone with
    the path of the removed file: the sample was not accepted. *)
Theorem probe_failure_loses_the_sample :
  let w := Examples.awaiting_sample in
  let r := handle_audio (B := CPythonFragment.builtins)
             (Examples.voice_message (Some Examples.unreadable_sample)) w in
  probed_duration Examples.unreadable_sample = None /\
  r.1 = Ok tt /\
  log r.2 = (log w ++ [WarnDurationUnchecked RuntimeError;
                       ErrorAudioHandling (UnboundLocalError "duration")])%list /\
  last (outbox r.2) = Some (ReplyText TxtAudioError None) /\
  user_data r.2 !! "voice_audio_path" = Some (PStr Examples.uploaded_path) /\
  get_truthy (user_data r.2) "awaiting_cloned_voice_name" = true /\
  files r.2 !! Examples.uploaded_path = None.
Proof. repeat split; vm_compute; reflexivity. Qed.
